(** * The persistence schema of the extraction pipeline ([infra/init.sql])

    A shallow embedding of the PostgreSQL schema of the repository: the three
    tables [demo_sessions], [extraction_cache] and [quality_metrics], the view
    [daily_stats], the function [cleanup_old_data()] and the seed [INSERT].

    A table is the list of its rows in heap order; a statement is a function
    on the database that either returns the new database or raises the
    SQLSTATE PostgreSQL reports.  Column types are modelled with the checks
    PostgreSQL applies when a value is assigned to them.

    Conventions.  The session time zone is UTC.  A character of a string is
    one [ascii].  Timestamps are finite.  A [SERIAL] key is the next value
    of its sequence, which is taken to have values left.  The operations of
    the caching and telemetry subsystem that the schema serves ([put], [get],
    [append], [rebuild], [runRetention]) are defined over the tables at the
    end of the definitions; those that [init.sql] has no statement for say
    so. *)

From Stdlib Require Import ZArith QArith String Ascii SpecFloat.
From stdpp Require Import base tactics option list sorting strings gmap pretty.

Close Scope Q_scope.
Open Scope Z_scope.

(** ** SQLSTATEs and the result of a statement *)

Module Pg.

(** The error classes the schema can raise. *)
Inductive sqlstate : Type :=
| string_data_right_truncation (column : string)   (* 22001 *)
| numeric_value_out_of_range (column : string)      (* 22003 *)
| not_null_violation (column : string)              (* 23502 *)
| unique_violation (constraint_name : string).      (* 23505 *)

Inductive result (A : Type) : Type :=
| Ok (a : A)
| Err (e : sqlstate).
Arguments Ok {A} a.
Arguments Err {A} e.

Definition bind {A B} (m : result A) (k : A -> result B) : result B :=
  match m with
  | Ok a => k a
  | Err e => Err e
  end.

Definition is_ok {A} (m : result A) : bool :=
  match m with Ok _ => true | Err _ => false end.

#[global] Instance sqlstate_eq_dec : EqDecision sqlstate.
Proof. solve_decision. Defined.

(** ** Character types *)

(** What an [INSERT] supplies for a column: nothing (the column default
    applies) or an expression, which may be [NULL]. *)
Inductive sql_arg (A : Type) : Type :=
| Omitted
| Given (v : option A).
Arguments Omitted {A}.
Arguments Given {A} v.

(** The value a column receives: its default when omitted. *)
Definition arg_value {A} (dflt : option A) (a : sql_arg A) : option A :=
  match a with
  | Omitted => dflt
  | Given v => v
  end.

Fixpoint all_spaces (s : string) : bool :=
  match s with
  | EmptyString => true
  | String c s' => if Ascii.eqb c " "%char then all_spaces s' else false
  end.

Definition str_take (n : nat) (s : string) : string := substring 0 n s.
Definition str_drop (n : nat) (s : string) : string :=
  substring n (String.length s - n) s.

(** Assignment to a [VARCHAR(n)] column.  A value of at most [n] characters
    is stored as it is.  A longer one raises 22001, unless every character
    after the [n]-th is a space: then PostgreSQL stores the first [n]
    characters (the rule of the SQL standard for character varying; see
    "Character Types" in the PostgreSQL documentation). *)
Definition varchar (n : nat) (column : string) (s : string) : result string :=
  if decide (String.length s <= n)%nat then Ok s
  else if all_spaces (str_drop n s) then Ok (str_take n s)
  else Err (string_data_right_truncation column).

(** ** Integers *)

Definition int4_min : Z := - 2 ^ 31.
Definition int4_max : Z := 2 ^ 31 - 1.

Definition in_int4 (z : Z) : bool := (int4_min <=? z) && (z <=? int4_max).

(** Assignment to an [INTEGER] column: 22003 outside the 32-bit range. *)
Definition int4 (column : string) (z : Z) : result Z :=
  if in_int4 z then Ok z else Err (numeric_value_out_of_range column).

(** ** Floating point *)

(** [FLOAT] without precision is [double precision]: IEEE binary64. *)
Definition float8 : Type := spec_float.
Definition f8_prec : Z := 53.
Definition f8_emax : Z := 1024.
Definition f8_zero : float8 := S754_zero false.
Definition f8_one : float8 := SFone f8_prec f8_emax.
Definition f8_add : float8 -> float8 -> float8 := SFadd f8_prec f8_emax.
Definition f8_div : float8 -> float8 -> float8 := SFdiv f8_prec f8_emax.
Definition f8_leb : float8 -> float8 -> bool := SFleb.
Definition f8_ltb : float8 -> float8 -> bool := SFltb.

(** The score lies in the closed interval [0,1]. *)
Definition in_unit_interval (x : float8) : bool :=
  f8_leb f8_zero x && f8_leb x f8_one.

(** ** Dates, timestamps and intervals *)

(** A [TIMESTAMP] is a count of microseconds since 2000-01-01 00:00:00, a
    [DATE] a count of days since 2000-01-01.  The session time zone is UTC,
    so that [CURRENT_TIMESTAMP] (a [timestamptz]) and a [TIMESTAMP] column
    compare by their counts. *)
Definition timestamp : Type := Z.
Definition date : Type := Z.

Definition USECS_PER_DAY : Z := 86400000000.
Definition USECS_PER_HOUR : Z := 3600000000.
Definition USECS_PER_MINUTE : Z := 60000000.
Definition POSTGRES_EPOCH_JDATE : Z := 2451545.

(** Julian day number of a calendar date ([date2j]). *)
Definition date2j (y m d : Z) : Z :=
  let '(y, m) := if 2 <? m then (y + 4800, m + 1) else (y + 4799, m + 13) in
  let century := y / 100 in
  y * 365 - 32167 + (y / 4 - century + century / 4) + (7834 * m / 256 + d).

(** Calendar date of a Julian day number ([j2date]). *)
Definition j2date (jd : Z) : Z * Z * Z :=
  let julian := jd + 32044 in
  let quad := julian / 146097 in
  let extra := (julian - quad * 146097) * 4 + 3 in
  let julian := julian + (60 + quad * 3 + extra / 146097) in
  let quad := julian / 1461 in
  let julian := julian - quad * 1461 in
  let y := julian * 4 / 1461 in
  let julian :=
    (if y =? 0 then (julian + 306) mod 366 else (julian + 305) mod 365) + 123 in
  let y := y + quad * 4 in
  let quad := julian * 2141 / 65536 in
  (y - 4800, (quad + 10) mod 12 + 1, julian - 7834 * quad / 256).

Definition make_date (y m d : Z) : date := date2j y m d - POSTGRES_EPOCH_JDATE.

Definition isleap (y : Z) : bool :=
  (y mod 4 =? 0) && (negb (y mod 100 =? 0) || (y mod 400 =? 0)).

Definition days_in_month (y m : Z) : Z :=
  if m =? 2 then (if isleap y then 29 else 28)
  else if (m =? 4) || (m =? 6) || (m =? 9) || (m =? 11) then 30
  else 31.

(** [DATE(ts)]: the calendar day a timestamp falls on. *)
Definition DATE (ts : timestamp) : date := ts / USECS_PER_DAY.

(** An [INTERVAL] keeps months, days and microseconds apart. *)
Record interval : Type := mk_interval {
  i_month : Z;
  i_day : Z;
  i_time : Z
}.

Definition interval_days (n : Z) : interval := mk_interval 0 n 0.
Definition interval_years (n : Z) : interval := mk_interval (12 * n) 0 0.
Definition interval_hours (n : Z) : interval :=
  mk_interval 0 0 (n * USECS_PER_HOUR).
Definition interval_minutes (n : Z) : interval :=
  mk_interval 0 0 (n * USECS_PER_MINUTE).

(** [ts + span] ([timestamp_pl_interval]): the months move the calendar date,
    with the day of the month clamped to the length of the target month;
    then the days are added to the date, then the microseconds. *)
Definition timestamp_pl_interval (ts : timestamp) (span : interval) : timestamp :=
  let ts :=
    if i_month span =? 0 then ts
    else
      let '(y, m, d) := j2date (DATE ts + POSTGRES_EPOCH_JDATE) in
      let months := y * 12 + (m - 1) + i_month span in
      let y' := months / 12 in
      let m' := months mod 12 + 1 in
      let d' := Z.min d (days_in_month y' m') in
      make_date y' m' d' * USECS_PER_DAY + ts mod USECS_PER_DAY in
  ts + i_day span * USECS_PER_DAY + i_time span.

(** [ts - span]. *)
Definition timestamp_mi_interval (ts : timestamp) (span : interval) : timestamp :=
  timestamp_pl_interval ts
    (mk_interval (- i_month span) (- i_day span) (- i_time span)).

(** ** Three-valued comparison *)

(** [a < b] where [a] may be [NULL]: unknown on [NULL]. *)
Definition sql_lt (a : option Z) (b : Z) : option bool :=
  match a with
  | Some x => Some (x <? b)
  | None => None
  end.

(** [b = true] where [b] may be [NULL]. *)
Definition sql_is_true (b : option bool) : bool :=
  match b with
  | Some true => true
  | _ => false
  end.

End Pg.

Import Pg.

#[global] Instance result_ret : MRet result := fun _ a => Ok a.
#[global] Instance result_bind : MBind result := fun _ _ k m => Pg.bind m k.


(** A supplied value is assigned to the type of its column; [NULL] passes. *)
Definition coerce {A B} (f : A -> result B) (v : option A) : result (option B) :=
  match v with
  | Some a => b ← f a; mret (Some b)
  | None => mret None
  end.

(** The [NOT NULL] constraint of a column. *)
Definition not_null {A} (column : string) (v : option A) : result A :=
  match v with
  | Some a => mret a
  | None => Err (not_null_violation column)
  end.

(** [DELETE FROM t WHERE cond]: a row goes when [cond] is true, and stays
    when it is false or unknown. *)
Definition DELETE_WHERE {A} (cond : A -> option bool) (t : list A) : list A :=
  filter (fun r => sql_is_true (cond r) = false) t.

(** A [JSONB] value, held as the canonical text PostgreSQL prints for it. *)
Definition jsonb : Type := string.

(** ** The tables *)

Module demo_sessions.

Record row : Type := mk_row {
  id : Z;                               (* SERIAL PRIMARY KEY *)
  session_id : string;                  (* VARCHAR(16) UNIQUE NOT NULL *)
  file_name : string;                   (* VARCHAR(255) NOT NULL *)
  file_size : Z;                        (* INTEGER NOT NULL *)
  file_hash : option string;            (* VARCHAR(64) *)
  extraction_success : option bool;     (* BOOLEAN DEFAULT FALSE *)
  jira_ticket_created : option bool;    (* BOOLEAN DEFAULT FALSE *)
  jira_ticket_key : option string;      (* VARCHAR(50) *)
  quality_score : option float8;        (* FLOAT *)
  latency_ms : option Z;                (* INTEGER *)
  error_message : option string;        (* TEXT *)
  ip_address : option string;           (* VARCHAR(45) *)
  user_agent : option string;           (* TEXT *)
  created_at : option timestamp         (* TIMESTAMP DEFAULT CURRENT_TIMESTAMP *)
}.

(** The column list and [VALUES] of an [INSERT]; [id] is always drawn from
    the sequence. *)
Module VALUES.
Record t : Type := mk {
  session_id : sql_arg string;
  file_name : sql_arg string;
  file_size : sql_arg Z;
  file_hash : sql_arg string;
  extraction_success : sql_arg bool;
  jira_ticket_created : sql_arg bool;
  jira_ticket_key : sql_arg string;
  quality_score : sql_arg float8;
  latency_ms : sql_arg Z;
  error_message : sql_arg string;
  ip_address : sql_arg string;
  user_agent : sql_arg string;
  created_at : sql_arg timestamp
}.
End VALUES.

Definition session_id_key : string := "demo_sessions_session_id_key".

(** The row an [INSERT] builds: every supplied value is first assigned to
    its column type, in column order; then the [NOT NULL] columns are
    tested, in column order. *)
Definition new_row (now : timestamp) (next_id : Z) (v : VALUES.t) : result row :=
  sid ← coerce (varchar 16 "session_id") (arg_value None (VALUES.session_id v));
  fname ← coerce (varchar 255 "file_name") (arg_value None (VALUES.file_name v));
  fsize ← coerce (int4 "file_size") (arg_value None (VALUES.file_size v));
  fhash ← coerce (varchar 64 "file_hash") (arg_value None (VALUES.file_hash v));
  key ← coerce (varchar 50 "jira_ticket_key")
          (arg_value None (VALUES.jira_ticket_key v));
  lat ← coerce (int4 "latency_ms") (arg_value None (VALUES.latency_ms v));
  ip ← coerce (varchar 45 "ip_address") (arg_value None (VALUES.ip_address v));
  sid ← not_null "session_id" sid;
  fname ← not_null "file_name" fname;
  fsize ← not_null "file_size" fsize;
  mret {| id := next_id;
          session_id := sid;
          file_name := fname;
          file_size := fsize;
          file_hash := fhash;
          extraction_success :=
            arg_value (Some false) (VALUES.extraction_success v);
          jira_ticket_created :=
            arg_value (Some false) (VALUES.jira_ticket_created v);
          jira_ticket_key := key;
          quality_score := arg_value None (VALUES.quality_score v);
          latency_ms := lat;
          error_message := arg_value None (VALUES.error_message v);
          ip_address := ip;
          user_agent := arg_value None (VALUES.user_agent v);
          created_at := arg_value (Some now) (VALUES.created_at v) |}.

(** Does the [UNIQUE] index on [session_id] already hold this key? *)
Definition conflicts (t : list row) (r : row) : Prop :=
  session_id r ∈ session_id <$> t.

#[global] Instance conflicts_dec t r : Decision (conflicts t r).
Proof. unfold conflicts. apply _. Defined.

(** [INSERT INTO demo_sessions (...) VALUES (...)]: the row is built, then
    the [UNIQUE] index on [session_id] is tested.  The primary key comes from
    the sequence and meets no equal key in any state the operations reach
    ([reachable_wf]). *)
Definition INSERT (now : timestamp) (next_id : Z) (v : VALUES.t) (t : list row)
  : result (list row) :=
  r ← new_row now next_id v;
  if decide (conflicts t r) then Err (unique_violation session_id_key)
  else mret (t ++ [r]).

(** [INSERT INTO demo_sessions (...) VALUES (...) ON CONFLICT (session_id)
    DO NOTHING]. *)
Definition INSERT_ON_CONFLICT_DO_NOTHING
    (now : timestamp) (next_id : Z) (v : VALUES.t) (t : list row)
  : result (list row) :=
  r ← new_row now next_id v;
  if decide (conflicts t r) then mret t
  else mret (t ++ [r]).

End demo_sessions.

Module extraction_cache.

Record row : Type := mk_row {
  id : Z;                               (* SERIAL PRIMARY KEY *)
  file_hash : string;                   (* VARCHAR(64) UNIQUE NOT NULL *)
  extraction_result : jsonb;            (* JSONB NOT NULL *)
  confidence_score : option float8;     (* FLOAT *)
  created_at : option timestamp;        (* TIMESTAMP DEFAULT CURRENT_TIMESTAMP *)
  accessed_at : option timestamp;       (* TIMESTAMP DEFAULT CURRENT_TIMESTAMP *)
  access_count : option Z               (* INTEGER DEFAULT 1 *)
}.

Module VALUES.
Record t : Type := mk {
  file_hash : sql_arg string;
  extraction_result : sql_arg jsonb;
  confidence_score : sql_arg float8;
  created_at : sql_arg timestamp;
  accessed_at : sql_arg timestamp;
  access_count : sql_arg Z
}.
End VALUES.

Definition file_hash_key : string := "extraction_cache_file_hash_key".

Definition new_row (now : timestamp) (next_id : Z) (v : VALUES.t) : result row :=
  fhash ← coerce (varchar 64 "file_hash") (arg_value None (VALUES.file_hash v));
  cnt ← coerce (int4 "access_count")
          (arg_value (Some 1) (VALUES.access_count v));
  fhash ← not_null "file_hash" fhash;
  res ← not_null "extraction_result"
          (arg_value None (VALUES.extraction_result v));
  mret {| id := next_id;
          file_hash := fhash;
          extraction_result := res;
          confidence_score := arg_value None (VALUES.confidence_score v);
          created_at := arg_value (Some now) (VALUES.created_at v);
          accessed_at := arg_value (Some now) (VALUES.accessed_at v);
          access_count := cnt |}.

Definition conflicts (t : list row) (r : row) : Prop :=
  file_hash r ∈ file_hash <$> t.

#[global] Instance conflicts_dec t r : Decision (conflicts t r).
Proof. unfold conflicts. apply _. Defined.

(** [INSERT INTO extraction_cache (...) VALUES (...)]. *)
Definition INSERT (now : timestamp) (next_id : Z) (v : VALUES.t) (t : list row)
  : result (list row * row) :=
  r ← new_row now next_id v;
  if decide (conflicts t r) then Err (unique_violation file_hash_key)
  else mret (t ++ [r], r).

End extraction_cache.

Module quality_metrics.

Record row : Type := mk_row {
  id : Z;                               (* SERIAL PRIMARY KEY *)
  date : Pg.date;                       (* DATE NOT NULL, unique index *)
  total_extractions : option Z;         (* INTEGER DEFAULT 0 *)
  successful_extractions : option Z;    (* INTEGER DEFAULT 0 *)
  avg_confidence_score : option float8; (* FLOAT *)
  avg_latency_ms : option Z;            (* INTEGER *)
  jira_tickets_created : option Z;      (* INTEGER DEFAULT 0 *)
  total_cost_eur : option float8;       (* FLOAT DEFAULT 0.0 *)
  created_at : option timestamp         (* TIMESTAMP DEFAULT CURRENT_TIMESTAMP *)
}.

End quality_metrics.

(** The database: the three tables and the sequences behind their [SERIAL]
    keys ([last_value]; a sequence is never rolled back). *)
Record database : Type := mk_database {
  db_demo_sessions : list demo_sessions.row;
  db_demo_sessions_id_seq : Z;
  db_extraction_cache : list extraction_cache.row;
  db_extraction_cache_id_seq : Z;
  db_quality_metrics : list quality_metrics.row
}.

Definition empty_database : database :=
  {| db_demo_sessions := [];
     db_demo_sessions_id_seq := 0;
     db_extraction_cache := [];
     db_extraction_cache_id_seq := 0;
     db_quality_metrics := [] |}.

(** ** The view [daily_stats] *)

Module daily_stats.

Record row : Type := mk_row {
  date : option Pg.date;                (* DATE(created_at) *)
  total_sessions : Z;                   (* COUNT( * ) *)
  successful_extractions : Z;           (* COUNT( * ) FILTER (...) *)
  jira_tickets : Z;                     (* COUNT( * ) FILTER (...) *)
  avg_quality : option float8;          (* AVG(quality_score) FILTER (...) *)
  avg_latency_ms : option Q             (* AVG(latency_ms) *)
}.

End daily_stats.

(** [col = b] on a nullable boolean column. *)
Definition sql_eq_bool (a : option bool) (b : bool) : option bool :=
  (fun x => Bool.eqb x b) <$> a.

(** [COUNT( * ) FILTER (WHERE cond)]. *)
Definition COUNT_FILTER {A} (cond : A -> option bool) (g : list A) : Z :=
  Z.of_nat (length (filter (fun r => sql_is_true (cond r) = true) g)).

(** [COUNT( * )]. *)
Definition COUNT {A} (g : list A) : Z := Z.of_nat (length g).

(** [AVG] over a [FLOAT] column: the non-null values are summed in scan order
    in binary64 and the sum is divided by their count; [NULL] when there is
    none.  (PostgreSQL raises 22003 when finite values sum to an infinity;
    scores are far from that range, and here the sum is the IEEE one.) *)
Definition AVG_float8 (xs : list (option float8)) : option float8 :=
  match omap id xs with
  | [] => None
  | vs => Some (f8_div (foldl f8_add f8_zero vs)
                       (foldl (fun n _ => f8_add n f8_one) f8_zero vs))
  end.

(** [AVG] over an [INTEGER] column: the exact quotient of the sum of the
    non-null values by their count ([numeric] in PostgreSQL, which prints
    this quotient to at least sixteen significant digits); [NULL] when
    there is none. *)
Definition AVG_int4 (xs : list (option Z)) : option Q :=
  match omap id xs with
  | [] => None
  | vs => Some (Qred (Qmake (foldr Z.add 0 vs) (Pos.of_nat (length vs))))
  end.

(** The grouping key [DATE(created_at)]; the rows without a timestamp form
    the [NULL] group. *)
Definition group_key (r : demo_sessions.row) : option date :=
  DATE <$> demo_sessions.created_at r.

(** The select list of [daily_stats] over one group. *)
Definition aggregate (k : option date) (g : list demo_sessions.row)
  : daily_stats.row :=
  {| daily_stats.date := k;
     daily_stats.total_sessions := COUNT g;
     daily_stats.successful_extractions :=
       COUNT_FILTER
         (fun r => sql_eq_bool (demo_sessions.extraction_success r) true) g;
     daily_stats.jira_tickets :=
       COUNT_FILTER
         (fun r => sql_eq_bool (demo_sessions.jira_ticket_created r) true) g;
     daily_stats.avg_quality :=
       AVG_float8
         (demo_sessions.quality_score
            <$> filter (fun r => is_Some (demo_sessions.quality_score r)) g);
     daily_stats.avg_latency_ms := AVG_int4 (demo_sessions.latency_ms <$> g) |}.

(** [ORDER BY date DESC]: the [NULL] group first, then the latest date. *)
Definition date_desc (a b : option date) : Prop :=
  match a, b with
  | None, _ => True
  | Some _, None => False
  | Some x, Some y => y <= x
  end.

#[global] Instance date_desc_dec a b : Decision (date_desc a b).
Proof. destruct a, b; simpl; apply _. Defined.

(** The rows of one group, in scan order. *)
Definition group_of (k : option date) (t : list demo_sessions.row)
  : list demo_sessions.row :=
  filter (fun r => group_key r = k) t.

(** [SELECT ... FROM demo_sessions GROUP BY DATE(created_at) ORDER BY date
    DESC]. *)
Definition daily_stats (t : list demo_sessions.row) : list daily_stats.row :=
  (fun k => aggregate k (group_of k t))
    <$> merge_sort date_desc (remove_dups (group_key <$> t)).

(** ** The function [cleanup_old_data()] *)

(** [now] is [CURRENT_TIMESTAMP], the start of the transaction.  The three
    statements of the body, in order:
    [DELETE FROM demo_sessions WHERE created_at < now - INTERVAL '30 days'],
    [DELETE FROM extraction_cache WHERE accessed_at < now - INTERVAL '7 days'],
    [DELETE FROM quality_metrics WHERE created_at < now - INTERVAL '1 year'].
    No table refers to another one, so that each statement leaves the other
    two tables as they are. *)
Definition cleanup_old_data (now : timestamp) (db : database) : database :=
  {| db_demo_sessions :=
       DELETE_WHERE
         (fun r => sql_lt (demo_sessions.created_at r)
                     (timestamp_mi_interval now (interval_days 30)))
         (db_demo_sessions db);
     db_demo_sessions_id_seq := db_demo_sessions_id_seq db;
     db_extraction_cache :=
       DELETE_WHERE
         (fun r => sql_lt (extraction_cache.accessed_at r)
                     (timestamp_mi_interval now (interval_days 7)))
         (db_extraction_cache db);
     db_extraction_cache_id_seq := db_extraction_cache_id_seq db;
     db_quality_metrics :=
       DELETE_WHERE
         (fun r => sql_lt (quality_metrics.created_at r)
                     (timestamp_mi_interval now (interval_years 1)))
         (db_quality_metrics db) |}.

(** ** Statements on the database *)

Definition set_demo_sessions (t : list demo_sessions.row) (seq : Z)
    (db : database) : database :=
  {| db_demo_sessions := t;
     db_demo_sessions_id_seq := seq;
     db_extraction_cache := db_extraction_cache db;
     db_extraction_cache_id_seq := db_extraction_cache_id_seq db;
     db_quality_metrics := db_quality_metrics db |}.

Definition set_extraction_cache (t : list extraction_cache.row) (seq : Z)
    (db : database) : database :=
  {| db_demo_sessions := db_demo_sessions db;
     db_demo_sessions_id_seq := db_demo_sessions_id_seq db;
     db_extraction_cache := t;
     db_extraction_cache_id_seq := seq;
     db_quality_metrics := db_quality_metrics db |}.

(** A single-row [INSERT INTO demo_sessions].  The key is taken from the
    sequence before the row is built, and stays taken when the statement
    fails. *)
Definition insert_session (now : timestamp) (v : demo_sessions.VALUES.t)
    (db : database) : database * option sqlstate :=
  let next_id := db_demo_sessions_id_seq db + 1 in
  match demo_sessions.INSERT now next_id v (db_demo_sessions db) with
  | Ok t => (set_demo_sessions t next_id db, None)
  | Err e => (set_demo_sessions (db_demo_sessions db) next_id db, Some e)
  end.

(** The rows of a multi-row [INSERT ... ON CONFLICT (session_id) DO NOTHING],
    one after the other. *)
Fixpoint insert_each_do_nothing (now : timestamp)
    (vs : list demo_sessions.VALUES.t) (seq : Z) (t : list demo_sessions.row)
  : Z * result (list demo_sessions.row) :=
  match vs with
  | [] => (seq, Ok t)
  | v :: vs' =>
      match demo_sessions.INSERT_ON_CONFLICT_DO_NOTHING now (seq + 1) v t with
      | Ok t' => insert_each_do_nothing now vs' (seq + 1) t'
      | Err e => (seq + 1, Err e)
      end
  end.

(** The whole statement: all rows, or none when one of them raises. *)
Definition insert_sessions_do_nothing (now : timestamp)
    (vs : list demo_sessions.VALUES.t) (db : database)
  : database * option sqlstate :=
  match insert_each_do_nothing now vs (db_demo_sessions_id_seq db)
          (db_demo_sessions db) with
  | (seq, Ok t) => (set_demo_sessions t seq db, None)
  | (seq, Err e) => (set_demo_sessions (db_demo_sessions db) seq db, Some e)
  end.

(** An integer as a binary64. *)
Definition f8_of_Z (z : Z) : float8 := binary_normalize f8_prec f8_emax z 0 false.

(** A decimal literal with two decimals assigned to a [FLOAT] column: the
    binary64 nearest to [n / 100]. *)
Definition f8_hundredths (n : Z) : float8 := f8_div (f8_of_Z n) (f8_of_Z 100).

(** One row of the seed: the ten columns of its column list. *)
Definition seed_row (now : timestamp) (sid fname : string) (fsize : Z)
    (fhash : string) (success ticket : bool) (key : option string)
    (quality : float8) (latency : Z) (age : interval) : demo_sessions.VALUES.t :=
  {| demo_sessions.VALUES.session_id := Given (Some sid);
     demo_sessions.VALUES.file_name := Given (Some fname);
     demo_sessions.VALUES.file_size := Given (Some fsize);
     demo_sessions.VALUES.file_hash := Given (Some fhash);
     demo_sessions.VALUES.extraction_success := Given (Some success);
     demo_sessions.VALUES.jira_ticket_created := Given (Some ticket);
     demo_sessions.VALUES.jira_ticket_key := Given key;
     demo_sessions.VALUES.quality_score := Given (Some quality);
     demo_sessions.VALUES.latency_ms := Given (Some latency);
     demo_sessions.VALUES.error_message := Omitted;
     demo_sessions.VALUES.ip_address := Omitted;
     demo_sessions.VALUES.user_agent := Omitted;
     demo_sessions.VALUES.created_at :=
       Given (Some (timestamp_mi_interval now age)) |}.

Definition seed_values (now : timestamp) : list demo_sessions.VALUES.t :=
  [ seed_row now "demo001" "contrat_service.pdf" 245760 "hash001" true true
      (Some "DEMO-1"%string) (f8_hundredths 92) 6200 (interval_hours 2);
    seed_row now "demo002" "bon_commande.docx" 156432 "hash002" true true
      (Some "DEMO-2"%string) (f8_hundredths 88) 5800 (interval_hours 1);
    seed_row now "demo003" "contrat_bail.txt" 12456 "hash003" true false
      None (f8_hundredths 75) 7200 (interval_minutes 30) ].

(** The seed [INSERT] at the end of [init.sql]. *)
Definition seed (now : timestamp) (db : database) : database * option sqlstate :=
  insert_sessions_do_nothing now (seed_values now) db.

(** ** The operations of the subsystem *)

(** Modelled from the spec: the error kinds of section 7, which [init.sql]
    does not name. *)
Inductive error : Type :=
| NotFoundError
| ConflictError
| DuplicateSessionError
| ValidationError
| StorageError.

#[global] Instance error_eq_dec : EqDecision error.
Proof. solve_decision. Defined.

(** Modelled from the spec: how the ledger names a SQLSTATE.  A violated
    [UNIQUE (session_id)] is the re-used session id; a value that does not
    fit its column is the malformed record. *)
Definition ledger_error (e : sqlstate) : error :=
  match e with
  | unique_violation c =>
      if decide (c = demo_sessions.session_id_key) then DuplicateSessionError
      else StorageError
  | string_data_right_truncation _
  | numeric_value_out_of_range _
  | not_null_violation _ => ValidationError
  end.

(** Modelled from the spec: how the cache names a SQLSTATE. *)
Definition cache_error (e : sqlstate) : error :=
  match e with
  | unique_violation _ => ConflictError
  | string_data_right_truncation _
  | numeric_value_out_of_range _
  | not_null_violation _ => ValidationError
  end.

Module SessionLedger.

(** [append(record)] of section 4.2.  [init.sql] declares the table and
    writes to it with [INSERT]; the append of one record is the plain
    [INSERT INTO demo_sessions] of one row, so that the table decides whether
    the record is stored.  The SQLSTATE is read as an error kind of the spec
    by [ledger_error]. *)
Definition append (now : timestamp) (v : demo_sessions.VALUES.t) (db : database)
  : database * option error :=
  let '(db', e) := insert_session now v db in (db', ledger_error <$> e).

End SessionLedger.

Module CacheStore.

Import extraction_cache.

(** Modelled from the spec: the probe of the cache by content hash, which
    [init.sql] has no statement for: [SELECT * FROM extraction_cache WHERE
    file_hash = h]. *)
Definition lookup (h : string) (t : list row) : option row :=
  head (filter (fun r => file_hash r = h) t).

(** Modelled from the spec: [put(contentHash, result, confidence)] of section
    4.1, which [init.sql] does not define.  An entry under the hash is
    authoritative: the same result is a no-op, another one is a
    [ConflictError].  With no entry, the row is inserted with the column
    defaults of [extraction_cache]. *)
Definition put (now : timestamp) (h : string) (R : jsonb) (C : option float8)
    (db : database) : database * (error + row) :=
  let t := db_extraction_cache db in
  match lookup h t with
  | Some e =>
      if decide (extraction_result e = R) then (db, inr e)
      else (db, inl ConflictError)
  | None =>
      let next_id := db_extraction_cache_id_seq db + 1 in
      match INSERT now next_id
              {| VALUES.file_hash := Given (Some h);
                 VALUES.extraction_result := Given (Some R);
                 VALUES.confidence_score := Given C;
                 VALUES.created_at := Omitted;
                 VALUES.accessed_at := Omitted;
                 VALUES.access_count := Omitted |} t with
      | Ok (t', r) => (set_extraction_cache t' next_id db, inr r)
      | Err e => (set_extraction_cache t next_id db, inl (cache_error e))
      end
  end.

(** Modelled from the spec: the side effect of a hit (section 4.1), one more
    access, at [now]: [SET access_count = access_count + 1, accessed_at =
    now]. *)
Definition touch (now : timestamp) (r : row) : row :=
  {| id := id r;
     file_hash := file_hash r;
     extraction_result := extraction_result r;
     confidence_score := confidence_score r;
     created_at := created_at r;
     accessed_at := Some now;
     access_count := Z.succ <$> access_count r |}.

(** Modelled from the spec: [get(contentHash)] of section 4.1, which
    [init.sql] does not define: the read and the touch in one statement,
    [UPDATE extraction_cache SET access_count = access_count + 1,
    accessed_at = now WHERE file_hash = h RETURNING *].  The counter is the
    integer of the spec. *)
Definition get (now : timestamp) (h : string) (db : database)
  : database * option row :=
  let t' :=
    (fun r => if decide (file_hash r = h) then touch now r else r)
      <$> db_extraction_cache db in
  (set_extraction_cache t' (db_extraction_cache_id_seq db) db, lookup h t').

(** Modelled from the spec: "any number of [get(H)] calls" (section 8), one
    at each of the instants [ts]; the entries returned, in order. *)
Fixpoint gets (ts : list timestamp) (h : string) (db : database)
  : database * list (option row) :=
  match ts with
  | [] => (db, [])
  | now :: ts' =>
      let '(db1, r) := get now h db in
      let '(db2, rs) := gets ts' h db1 in
      (db2, r :: rs)
  end.

End CacheStore.

Module MetricsAggregator.

Record date_range : Type := mk_range {
  range_from : date;
  range_to : date
}.

Definition in_range (rg : date_range) (d : date) : Prop :=
  range_from rg <= d /\ d <= range_to rg.

#[global] Instance in_range_dec rg d : Decision (in_range rg d).
Proof. unfold in_range. apply _. Defined.

(** The rows of the view that carry a date, keyed by it. *)
Definition dated (rows : list daily_stats.row) : list (date * daily_stats.row) :=
  omap (fun r => (fun d => (d, r)) <$> daily_stats.date r) rows.

(** The stored [DailyMetrics] rows, one per date. *)
Abbreviation metrics_store := (gmap Z daily_stats.row).

(** Modelled from the spec: the rows [rebuild] recomputes (section 4.3,
    "replays all SessionRecords in the range"): the rows of [daily_stats]
    over the ledger whose date lies in the range. *)
Definition recomputed (rg : date_range) (ledger : list demo_sessions.row)
  : metrics_store :=
  list_to_map (filter (fun p => in_range rg p.1) (dated (daily_stats ledger))).

(** Modelled from the spec: the stored rows [rebuild] does not touch, those
    outside the range. *)
Definition outside (rg : date_range) (m : metrics_store) : metrics_store :=
  filter (fun p => ~ in_range rg p.1) m.

(** Modelled from the spec: [rebuild(dateRange)] of section 4.3, which
    [init.sql] does not define: the stored rows of the range are dropped and
    recomputed from the ledger with the query of [daily_stats]. *)
Definition rebuild (rg : date_range) (ledger : list demo_sessions.row)
    (m : metrics_store) : metrics_store :=
  recomputed rg ledger ∪ outside rg m.

End MetricsAggregator.

Module RetentionManager.

(** [runRetention(now)] is [cleanup_old_data()] run at [now]. *)
Definition runRetention (now : timestamp) (db : database) : database :=
  cleanup_old_data now db.

End RetentionManager.

(** The whole state: the database and the stored metrics. *)
Record system : Type := mk_system {
  sys_db : database;
  sys_metrics : MetricsAggregator.metrics_store
}.

(** Every operation that reaches the store. *)
Inductive operation : Type :=
| op_append (now : timestamp) (v : demo_sessions.VALUES.t)
| op_seed (now : timestamp)
| op_put (now : timestamp) (h : string) (R : jsonb) (C : option float8)
| op_get (now : timestamp) (h : string)
| op_rebuild (rg : MetricsAggregator.date_range)
| op_runRetention (now : timestamp).

Definition step (op : operation) (s : system) : system :=
  match op with
  | op_append now v =>
      mk_system (SessionLedger.append now v (sys_db s)).1 (sys_metrics s)
  | op_seed now => mk_system (seed now (sys_db s)).1 (sys_metrics s)
  | op_put now h R C =>
      mk_system (CacheStore.put now h R C (sys_db s)).1 (sys_metrics s)
  | op_get now h => mk_system (CacheStore.get now h (sys_db s)).1 (sys_metrics s)
  | op_rebuild rg =>
      mk_system (sys_db s)
        (MetricsAggregator.rebuild rg (db_demo_sessions (sys_db s))
           (sys_metrics s))
  | op_runRetention now =>
      mk_system (RetentionManager.runRetention now (sys_db s)) (sys_metrics s)
  end.

(** The states the operations reach from the empty database. *)
Inductive reachable : system -> Prop :=
| reachable_init : reachable (mk_system empty_database ∅)
| reachable_step op s : reachable s -> reachable (step op s).

(** ** The vocabulary of the properties *)

(** More than [n] days have passed at [now] since the instant [ts]; an
    absent timestamp has no age. *)
Definition older_than_days (n : Z) (now : timestamp) (ts : option timestamp)
  : Prop :=
  exists t, ts = Some t /\ t + n * USECS_PER_DAY < now.

(** The instant [ts] lies before the same calendar instant [n] years before
    [now]. *)
Definition older_than_years (n : Z) (now : timestamp) (ts : option timestamp)
  : Prop :=
  exists t, ts = Some t /\ t < timestamp_mi_interval now (interval_years n).

(** A value fits a [VARCHAR(n)] column, an [INTEGER] column. *)
Definition fits_varchar (n : nat) (a : option string) : Prop :=
  forall s, a = Some s -> (String.length s <= n)%nat.

Definition fits_int4 (a : option Z) : Prop :=
  forall z, a = Some z -> in_int4 z = true.

(** The record fits the columns of [demo_sessions]: the three [NOT NULL]
    columns are supplied, every string is within the length of its column
    and every integer within 32 bits. *)
Definition fits_columns (v : demo_sessions.VALUES.t) : Prop :=
  let sid := arg_value None (demo_sessions.VALUES.session_id v) in
  let fname := arg_value None (demo_sessions.VALUES.file_name v) in
  let fsize := arg_value None (demo_sessions.VALUES.file_size v) in
  is_Some sid /\ fits_varchar 16 sid /\
  is_Some fname /\ fits_varchar 255 fname /\
  is_Some fsize /\ fits_int4 fsize /\
  fits_varchar 64 (arg_value None (demo_sessions.VALUES.file_hash v)) /\
  fits_varchar 50 (arg_value None (demo_sessions.VALUES.jira_ticket_key v)) /\
  fits_int4 (arg_value None (demo_sessions.VALUES.latency_ms v)) /\
  fits_varchar 45 (arg_value None (demo_sessions.VALUES.ip_address v)).

(** The session ids the ledger holds. *)
Definition session_ids (db : database) : list string :=
  demo_sessions.session_id <$> db_demo_sessions db.

(** A ledger and a cache built with the operations: a session appended forty
    days before [retention_now] for the hash [h1], and the entry of [h1] put
    ten days before it. *)
Definition retention_now : timestamp :=
  make_date 2025 3 1 * USECS_PER_DAY + 12 * USECS_PER_HOUR.

Definition plain_session (sid fname : string) (fsize : Z) (fhash : option string)
  : demo_sessions.VALUES.t :=
  {| demo_sessions.VALUES.session_id := Given (Some sid);
     demo_sessions.VALUES.file_name := Given (Some fname);
     demo_sessions.VALUES.file_size := Given (Some fsize);
     demo_sessions.VALUES.file_hash := Given fhash;
     demo_sessions.VALUES.extraction_success := Omitted;
     demo_sessions.VALUES.jira_ticket_created := Omitted;
     demo_sessions.VALUES.jira_ticket_key := Omitted;
     demo_sessions.VALUES.quality_score := Omitted;
     demo_sessions.VALUES.latency_ms := Omitted;
     demo_sessions.VALUES.error_message := Omitted;
     demo_sessions.VALUES.ip_address := Omitted;
     demo_sessions.VALUES.user_agent := Omitted;
     demo_sessions.VALUES.created_at := Omitted |}.

Definition stale_database : database :=
  (CacheStore.put (retention_now - 10 * USECS_PER_DAY) "h1" "[1]" None
     (SessionLedger.append (retention_now - 40 * USECS_PER_DAY)
        (plain_session "s-old" "a.pdf" 1024 (Some "h1"%string))
        empty_database).1).1.

(** A record of a failed extraction for which a ticket was created all the
    same, appended to the empty ledger at noon of 2025-01-01. *)
Definition ticket_without_success : demo_sessions.VALUES.t :=
  {| demo_sessions.VALUES.session_id := Given (Some "s-fail"%string);
     demo_sessions.VALUES.file_name := Given (Some "b.pdf"%string);
     demo_sessions.VALUES.file_size := Given (Some 2048);
     demo_sessions.VALUES.file_hash := Omitted;
     demo_sessions.VALUES.extraction_success := Given (Some false);
     demo_sessions.VALUES.jira_ticket_created := Given (Some true);
     demo_sessions.VALUES.jira_ticket_key := Given (Some "DEMO-9"%string);
     demo_sessions.VALUES.quality_score := Omitted;
     demo_sessions.VALUES.latency_ms := Omitted;
     demo_sessions.VALUES.error_message := Omitted;
     demo_sessions.VALUES.ip_address := Omitted;
     demo_sessions.VALUES.user_agent := Omitted;
     demo_sessions.VALUES.created_at := Omitted |}.

Definition noon_2025_01_01 : timestamp :=
  make_date 2025 1 1 * USECS_PER_DAY + 12 * USECS_PER_HOUR.

(** The scenario of a day: a session with a success flag and a latency. *)
Definition timed_session (sid : string) (success : bool) (latency : Z)
  : demo_sessions.VALUES.t :=
  {| demo_sessions.VALUES.session_id := Given (Some sid);
     demo_sessions.VALUES.file_name := Given (Some "c.pdf"%string);
     demo_sessions.VALUES.file_size := Given (Some 4096);
     demo_sessions.VALUES.file_hash := Omitted;
     demo_sessions.VALUES.extraction_success := Given (Some success);
     demo_sessions.VALUES.jira_ticket_created := Omitted;
     demo_sessions.VALUES.jira_ticket_key := Omitted;
     demo_sessions.VALUES.quality_score := Omitted;
     demo_sessions.VALUES.latency_ms := Given (Some latency);
     demo_sessions.VALUES.error_message := Omitted;
     demo_sessions.VALUES.ip_address := Omitted;
     demo_sessions.VALUES.user_agent := Omitted;
     demo_sessions.VALUES.created_at := Omitted |}.

(** Three sessions on 2025-01-01 and one on the next day. *)
Definition scenario_database : database :=
  let db1 := (SessionLedger.append noon_2025_01_01
                (timed_session "s1" true 100) empty_database).1 in
  let db2 := (SessionLedger.append (noon_2025_01_01 + USECS_PER_HOUR)
                (timed_session "s2" true 200) db1).1 in
  let db3 := (SessionLedger.append (noon_2025_01_01 + 2 * USECS_PER_HOUR)
                (timed_session "s3" false 300) db2).1 in
  (SessionLedger.append (noon_2025_01_01 + USECS_PER_DAY)
     (timed_session "s4" true 900) db3).1.

(** The binary64 nearest to nine tenths. *)
Definition f8_tenths (n : Z) : float8 := f8_div (f8_of_Z n) (f8_of_Z 10).

(** A cache that holds one entry, put on a miss. *)
Definition one_entry_database : database :=
  (CacheStore.put noon_2025_01_01 "h1" "[1]" (Some (f8_tenths 9))
     empty_database).1.

Definition h1_entry : extraction_cache.row :=
  {| extraction_cache.id := 1;
     extraction_cache.file_hash := "h1";
     extraction_cache.extraction_result := "[1]"%string;
     extraction_cache.confidence_score := Some (f8_tenths 9);
     extraction_cache.created_at := Some noon_2025_01_01;
     extraction_cache.accessed_at := Some noon_2025_01_01;
     extraction_cache.access_count := Some 1 |}.

(** The seeded ledger, and a record for a file of three gigabytes under a
    session id the seed has taken. *)
Definition seeded_database : database := (seed noon_2025_01_01 empty_database).1.

Definition oversized_duplicate : demo_sessions.VALUES.t :=
  plain_session "demo001" "dump.bin" 3000000000 None.

(** A record with a negative size and a quality score of 1.5. *)
Definition f8_three_halves : float8 := f8_div (f8_of_Z 3) (f8_of_Z 2).

Definition negative_size_session : demo_sessions.VALUES.t :=
  {| demo_sessions.VALUES.session_id := Given (Some "s-neg"%string);
     demo_sessions.VALUES.file_name := Given (Some "d.pdf"%string);
     demo_sessions.VALUES.file_size := Given (Some (-1));
     demo_sessions.VALUES.file_hash := Omitted;
     demo_sessions.VALUES.extraction_success := Omitted;
     demo_sessions.VALUES.jira_ticket_created := Omitted;
     demo_sessions.VALUES.jira_ticket_key := Omitted;
     demo_sessions.VALUES.quality_score := Given (Some f8_three_halves);
     demo_sessions.VALUES.latency_ms := Omitted;
     demo_sessions.VALUES.error_message := Omitted;
     demo_sessions.VALUES.ip_address := Omitted;
     demo_sessions.VALUES.user_agent := Omitted;
     demo_sessions.VALUES.created_at := Omitted |}.

(** Session ids of 16 and of 17 characters; the last one ends in a space. *)
Definition sid_16 : string := "0123456789abcdef".
Definition sid_17 : string := "0123456789abcdefg".
Definition sid_17_space : string := "0123456789abcdef ".

(** The constraints of the two keyed tables as properties of a state: the
    [UNIQUE] column and the primary key hold no value twice, every key was
    drawn from the sequence, and the [UNIQUE] column is within its length. *)
Definition rows_wf (t : list demo_sessions.row) (seq : Z) : Prop :=
  NoDup (demo_sessions.session_id <$> t)
  /\ NoDup (demo_sessions.id <$> t)
  /\ Forall (fun r => demo_sessions.id r <= seq
                      /\ (String.length (demo_sessions.session_id r) <= 16)%nat) t.

Definition ledger_wf (db : database) : Prop :=
  rows_wf (db_demo_sessions db) (db_demo_sessions_id_seq db).

Definition cache_wf (db : database) : Prop :=
  NoDup (extraction_cache.file_hash <$> db_extraction_cache db)
  /\ NoDup (extraction_cache.id <$> db_extraction_cache db)
  /\ Forall (fun r => extraction_cache.id r <= db_extraction_cache_id_seq db
                      /\ (String.length (extraction_cache.file_hash r) <= 64)%nat)
       (db_extraction_cache db).

(** Rows on either side of the windows at [retention_now]: a session of
    exactly thirty days and one a microsecond older, a metrics row created
    exactly one calendar year before and one a microsecond older. *)
Definition session_created_at (id : Z) (sid : string) (ts : timestamp)
  : demo_sessions.row :=
  {| demo_sessions.id := id;
     demo_sessions.session_id := sid;
     demo_sessions.file_name := "h.pdf";
     demo_sessions.file_size := 1;
     demo_sessions.file_hash := None;
     demo_sessions.extraction_success := Some true;
     demo_sessions.jira_ticket_created := Some false;
     demo_sessions.jira_ticket_key := None;
     demo_sessions.quality_score := None;
     demo_sessions.latency_ms := None;
     demo_sessions.error_message := None;
     demo_sessions.ip_address := None;
     demo_sessions.user_agent := None;
     demo_sessions.created_at := Some ts |}.

Definition metrics_created_at (id : Z) (d : date) (ts : timestamp)
  : quality_metrics.row :=
  {| quality_metrics.id := id;
     quality_metrics.date := d;
     quality_metrics.total_extractions := Some 0;
     quality_metrics.successful_extractions := Some 0;
     quality_metrics.avg_confidence_score := None;
     quality_metrics.avg_latency_ms := None;
     quality_metrics.jira_tickets_created := Some 0;
     quality_metrics.total_cost_eur := Some f8_zero;
     quality_metrics.created_at := Some ts |}.

Definition one_year_before_retention_now : timestamp :=
  make_date 2024 3 1 * USECS_PER_DAY + 12 * USECS_PER_HOUR.

Definition boundary_database : database :=
  {| db_demo_sessions :=
       [ session_created_at 1 "s-30d" (retention_now - 30 * USECS_PER_DAY);
         session_created_at 2 "s-30d-1us" (retention_now - 30 * USECS_PER_DAY - 1) ];
     db_demo_sessions_id_seq := 2;
     db_extraction_cache := [];
     db_extraction_cache_id_seq := 0;
     db_quality_metrics :=
       [ metrics_created_at 1 (make_date 2024 3 1) one_year_before_retention_now;
         metrics_created_at 2 (make_date 2024 2 29)
           (one_year_before_retention_now - 1) ] |}.

(** The session ids of the seed, and a ledger in which [demo002] is taken by
    an earlier record of another file. *)
Definition seed_session_ids : list string := ["demo001"; "demo002"; "demo003"]%string.

Definition half_seeded_database : database :=
  (insert_session (noon_2025_01_01 - USECS_PER_DAY)
     (plain_session "demo002" "other.pdf" 77 None) empty_database).1.

(** [a] comes strictly before [b] under [ORDER BY date DESC]: the [NULL]
    group before every date, a later date before an earlier one. *)
Definition date_before (a b : option date) : Prop :=
  match a, b with
  | None, Some _ => True
  | Some x, Some y => y < x
  | _, None => False
  end.

(** The columns of a row of [daily_stats] that are computed exactly. *)
Definition exact_columns (row : daily_stats.row)
  : option date * Z * Z * Z * option Q :=
  (daily_stats.date row, daily_stats.total_sessions row,
   daily_stats.successful_extractions row, daily_stats.jira_tickets row,
   daily_stats.avg_latency_ms row).

(** Sum of a column of integers. *)
Definition SUM (xs : list Z) : Z := foldr Z.add 0 xs.

(** Rows that differ in their order only, with quality scores whose binary64
    sum depends on the order: 2^53, 1, 1. *)
Definition scored_row (id : Z) (sid : string) (q : float8) : demo_sessions.row :=
  {| demo_sessions.id := id;
     demo_sessions.session_id := sid;
     demo_sessions.file_name := "q.pdf";
     demo_sessions.file_size := 1;
     demo_sessions.file_hash := None;
     demo_sessions.extraction_success := Some true;
     demo_sessions.jira_ticket_created := Some false;
     demo_sessions.jira_ticket_key := None;
     demo_sessions.quality_score := Some q;
     demo_sessions.latency_ms := Some 10;
     demo_sessions.error_message := None;
     demo_sessions.ip_address := None;
     demo_sessions.user_agent := None;
     demo_sessions.created_at := Some noon_2025_01_01 |}.

Definition big_score_first : list demo_sessions.row :=
  [ scored_row 1 "q1" (f8_of_Z (2 ^ 53)); scored_row 2 "q2" f8_one;
    scored_row 3 "q3" f8_one ].

Definition big_score_last : list demo_sessions.row :=
  [ scored_row 2 "q2" f8_one; scored_row 3 "q3" f8_one;
    scored_row 1 "q1" (f8_of_Z (2 ^ 53)) ].

(** The values an [INSERT INTO demo_sessions] supplies are within the types
    of their columns; the columns may be missing. *)
Definition values_fit (v : demo_sessions.VALUES.t) : Prop :=
  fits_varchar 16 (arg_value None (demo_sessions.VALUES.session_id v))
  /\ fits_varchar 255 (arg_value None (demo_sessions.VALUES.file_name v))
  /\ fits_int4 (arg_value None (demo_sessions.VALUES.file_size v))
  /\ fits_varchar 64 (arg_value None (demo_sessions.VALUES.file_hash v))
  /\ fits_varchar 50 (arg_value None (demo_sessions.VALUES.jira_ticket_key v))
  /\ fits_int4 (arg_value None (demo_sessions.VALUES.latency_ms v))
  /\ fits_varchar 45 (arg_value None (demo_sessions.VALUES.ip_address v)).

(** A record with an explicit [NULL] for [created_at], and one without a
    file name. *)
Definition undated_session : demo_sessions.VALUES.t :=
  {| demo_sessions.VALUES.session_id := Given (Some "s-null"%string);
     demo_sessions.VALUES.file_name := Given (Some "n.pdf"%string);
     demo_sessions.VALUES.file_size := Given (Some 512);
     demo_sessions.VALUES.file_hash := Omitted;
     demo_sessions.VALUES.extraction_success := Omitted;
     demo_sessions.VALUES.jira_ticket_created := Omitted;
     demo_sessions.VALUES.jira_ticket_key := Omitted;
     demo_sessions.VALUES.quality_score := Omitted;
     demo_sessions.VALUES.latency_ms := Omitted;
     demo_sessions.VALUES.error_message := Omitted;
     demo_sessions.VALUES.ip_address := Omitted;
     demo_sessions.VALUES.user_agent := Omitted;
     demo_sessions.VALUES.created_at := Given None |}.

Definition nameless_session : demo_sessions.VALUES.t :=
  {| demo_sessions.VALUES.session_id := Given (Some "s-anon"%string);
     demo_sessions.VALUES.file_name := Omitted;
     demo_sessions.VALUES.file_size := Omitted;
     demo_sessions.VALUES.file_hash := Omitted;
     demo_sessions.VALUES.extraction_success := Omitted;
     demo_sessions.VALUES.jira_ticket_created := Omitted;
     demo_sessions.VALUES.jira_ticket_key := Omitted;
     demo_sessions.VALUES.quality_score := Omitted;
     demo_sessions.VALUES.latency_ms := Omitted;
     demo_sessions.VALUES.error_message := Omitted;
     demo_sessions.VALUES.ip_address := Omitted;
     demo_sessions.VALUES.user_agent := Omitted;
     demo_sessions.VALUES.created_at := Omitted |}.

(** Two runs of the cleanup around a leap day, and a metrics row created at
    noon of 2023-02-28. *)
Definition late_on_2024_02_28 : timestamp :=
  make_date 2024 2 28 * USECS_PER_DAY + 23 * USECS_PER_HOUR.

Definition early_on_2024_02_29 : timestamp :=
  make_date 2024 2 29 * USECS_PER_DAY + USECS_PER_HOUR.

Definition leap_database : database :=
  {| db_demo_sessions := [];
     db_demo_sessions_id_seq := 0;
     db_extraction_cache := [];
     db_extraction_cache_id_seq := 0;
     db_quality_metrics :=
       [ metrics_created_at 1 (make_date 2023 2 28)
           (make_date 2023 2 28 * USECS_PER_DAY + 12 * USECS_PER_HOUR) ] |}.

(** * The HTTP server of [working_backend.js]

    The request listener of [working_backend.js], over the part of Node's
    [http] module that it uses: a listener is a program that changes the
    [ServerResponse] it is handed, writes lines to the console, and may
    throw.  What the listener reads from the clock and from the process is
    an argument of it. *)

Module Node.

(** A value handed to [JSON.stringify]; a number is held as the text
    [JSON.stringify] prints for it. *)
#[local] Unset Elimination Schemes.
Inductive json : Type :=
| JString (s : string)
| JNumber (repr : string)
| JBool (b : bool)
| JArray (items : list json)
| JObject (fields : list (string * json)).
#[local] Set Elimination Schemes.

(** What [res.end] is given: the text of [JSON.stringify(v)], or a string. *)
Inductive chunk : Type :=
| Stringify (v : json)
| Text (s : string).

Inductive exception : Type :=
| ERR_HTTP_HEADERS_SENT
| ERR_HTTP_INVALID_STATUS_CODE.

(** [req.method] and [req.url]. *)
Record IncomingMessage : Type := mk_req {
  method : string;
  url : string
}.

(** The response under construction.  [setHeader] files a header under its
    lower-case name, with the name as written and the value. *)
Record ServerResponse : Type := mk_res {
  outHeaders : gmap string (string * string);
  statusCode : Z;
  headersSent : bool;
  body : list chunk;
  finished : bool
}.

(** The response a listener is handed. *)
Definition new_ServerResponse : ServerResponse :=
  {| outHeaders := ∅;
     statusCode := 200;
     headersSent := false;
     body := [];
     finished := false |}.

Record world : Type := mk_world {
  res : ServerResponse;
  stdout : list string
}.

(** A statement: it throws or returns, and leaves a world. *)
Definition js (A : Type) : Type := world -> (exception + A) * world.

#[global] Instance js_ret : MRet js := fun _ a w => (inr a, w).
#[global] Instance js_bind : MBind js := fun _ _ k m w =>
  match m w with
  | (inr a, w') => k a w'
  | (inl e, w') => (inl e, w')
  end.

Definition to_lower_ascii (c : ascii) : ascii :=
  let n := nat_of_ascii c in
  if (65 <=? n)%nat && (n <=? 90)%nat then ascii_of_nat (n + 32) else c.

Fixpoint toLowerCase (s : string) : string :=
  match s with
  | EmptyString => EmptyString
  | String c s' => String (to_lower_ascii c) (toLowerCase s')
  end.

(** [console.log(line)]. *)
Definition console_log (line : string) : js unit := fun w =>
  (inr (), {| res := res w; stdout := stdout w ++ [line] |}).

(** [res.setHeader(name, value)]: throws once the head has been written;
    otherwise the header replaces the one of the same name, whatever the
    case of the letters. *)
Definition setHeader (name value : string) : js unit := fun w =>
  let r := res w in
  if headersSent r then (inl ERR_HTTP_HEADERS_SENT, w)
  else
    (inr (),
     {| res := {| outHeaders := <[toLowerCase name := (name, value)]> (outHeaders r);
                  statusCode := statusCode r;
                  headersSent := headersSent r;
                  body := body r;
                  finished := finished r |};
        stdout := stdout w |}).

(** [res.writeHead(code)]: throws when the head has been written already,
    or when the code is not a three-digit status. *)
Definition writeHead (code : Z) : js unit := fun w =>
  let r := res w in
  if headersSent r then (inl ERR_HTTP_HEADERS_SENT, w)
  else if (code <? 100) || (999 <? code) then (inl ERR_HTTP_INVALID_STATUS_CODE, w)
  else
    (inr (),
     {| res := {| outHeaders := outHeaders r;
                  statusCode := code;
                  headersSent := true;
                  body := body r;
                  finished := finished r |};
        stdout := stdout w |}).

(** [res.end(data)]: does nothing on a finished response; otherwise writes
    the head if it has not been written, with the status the response has,
    then the data, and finishes the response. *)
Definition end_ (data : option chunk) : js unit := fun w =>
  let r := res w in
  if finished r then (inr (), w)
  else
    (inr (),
     {| res := {| outHeaders := outHeaders r;
                  statusCode := statusCode r;
                  headersSent := true;
                  body := body r ++ from_option (fun c => [c]) [] data;
                  finished := true |};
        stdout := stdout w |}).

(** The value of a header of the response, by any spelling of its name. *)
Definition getHeader (name : string) (r : ServerResponse) : option string :=
  snd <$> outHeaders r !! toLowerCase name.

End Node.

Module working_backend.

Import Node.

Definition PORT : N := 8000.

(** What a request reads from the clock and the process: the two results of
    [new Date().toISOString()] (for the log line and for the body), the
    result of [Date.now()] and the printed result of [process.uptime()]. *)
Record runtime : Type := mk_runtime {
  log_time : string;
  body_time : string;
  Date_now : N;
  uptime : string
}.

Definition dquote : string := String (ascii_of_nat 34) EmptyString.

Definition healthData (rt : runtime) : json :=
  JObject
    [ ("status", JString "healthy");
      ("service", JString "xyqo-backend-working");
      ("timestamp", JString (body_time rt));
      ("port", JNumber (pretty PORT));
      ("uptime", JNumber (uptime rt)) ]%string.

Definition responseData (rt : runtime) : json :=
  JObject
    [ ("success", JBool true);
      ("summary",
       JObject
         [ ("title", JString "Contrat Commercial - Analyse Réussie");
           ("parties",
            JArray [JString "XYQO Technologies"; JString "Client Partenaire"]);
           ("contract_type", JString "Accord de Service");
           ("key_terms",
            JArray [ JString "Durée: 24 mois";
                     JString "Montant: €75,000";
                     JString "Résiliation: 60 jours de préavis";
                     JString "Confidentialité: Clause NDA incluse" ]);
           ("analysis_date", JString (body_time rt));
           ("confidence_score", JNumber "0.95") ]);
      ("processing_time", JNumber "1.5");
      ("cost_euros", JNumber "0.02");
      ("pdf_download_url", JString "/download/contract-summary.pdf");
      ("processing_id", JString ("xyqo-" +:+ pretty (Date_now rt))) ]%string.

Definition not_found (req : IncomingMessage) : json :=
  JObject
    [ ("error", JString "Endpoint not found");
      ("url", JString (url req));
      ("available_endpoints",
       JArray [ JString "/health"; JString "/api/v1/contract/analyze";
                JString "/download/*" ]) ]%string.

(** The listener passed to [http.createServer]. *)
Definition listener (rt : runtime) (req : IncomingMessage) : js unit :=
  console_log (log_time rt +:+ " - " +:+ method req +:+ " " +:+ url req);;
  setHeader "Access-Control-Allow-Origin" "*";;
  setHeader "Access-Control-Allow-Methods" "GET, POST, OPTIONS";;
  setHeader "Access-Control-Allow-Headers" "Content-Type";;
  setHeader "Content-Type" "application/json";;
  if decide (method req = "OPTIONS"%string) then
    writeHead 200;;
    end_ None
  else if decide (url req = "/health"%string \/ url req = "/"%string) then
    writeHead 200;;
    end_ (Some (Stringify (healthData rt)))
  else if decide (url req = "/api/v1/contract/analyze"%string
                  /\ method req = "POST"%string) then
    console_log "✅ Contract analysis request received";;
    writeHead 200;;
    end_ (Some (Stringify (responseData rt)))
  else if decide (String.prefix "/download/" (url req) = true
                  /\ method req = "GET"%string) then
    console_log ("📄 PDF download requested: " +:+ url req);;
    setHeader "Content-Type" "application/pdf";;
    setHeader "Content-Disposition"
      ("attachment; filename=" +:+ dquote +:+ "contract-summary.pdf" +:+ dquote);;
    writeHead 200;;
    end_ (Some (Text "PDF Content Simulation - XYQO Contract Analysis Report"))
  else
    writeHead 404;;
    end_ (Some (Stringify (not_found req))).

(** The listener run on the response of a new request. *)
Definition respond (rt : runtime) (req : IncomingMessage)
  : (exception + unit) * world :=
  listener rt req {| res := new_ServerResponse; stdout := [] |}.

(** The four ways a request is answered other than by 404. *)
Definition is_preflight (req : IncomingMessage) : Prop :=
  method req = "OPTIONS"%string.

Definition is_health (req : IncomingMessage) : Prop :=
  url req = "/health"%string \/ url req = "/"%string.

Definition is_analyze (req : IncomingMessage) : Prop :=
  url req = "/api/v1/contract/analyze"%string /\ method req = "POST"%string.

Definition is_download (req : IncomingMessage) : Prop :=
  String.prefix "/download/" (url req) = true /\ method req = "GET"%string.

End working_backend.

(** The field [name] of an object. *)
Definition json_field (name : string) (v : Node.json) : option Node.json :=
  match v with
  | Node.JObject fields =>
      (fun hit => hit.2.2) <$> list_find (fun p => p.1 = name) fields
  | _ => None
  end.

(** Two requests, and the clock of the examples. *)
Definition example_runtime : working_backend.runtime :=
  {| working_backend.log_time := "2025-01-01T12:00:00.000Z";
     working_backend.body_time := "2025-01-01T12:00:00.001Z";
     working_backend.Date_now := 1735732800001;
     working_backend.uptime := "12.5" |}.

Definition post_to_download : Node.IncomingMessage :=
  {| Node.method := "POST"; Node.url := "/download/report.pdf" |}.

Definition options_anywhere : Node.IncomingMessage :=
  {| Node.method := "OPTIONS"; Node.url := "/no/such/path" |}.

Definition get_download : Node.IncomingMessage :=
  {| Node.method := "GET"; Node.url := "/download/report.pdf" |}.

Definition post_analyze : Node.IncomingMessage :=
  {| Node.method := "POST"; Node.url := "/api/v1/contract/analyze" |}.

(** * Properties *)

(** ** The value layer on concrete inputs *)

Example date2j_epoch : date2j 2000 1 1 = POSTGRES_EPOCH_JDATE.
Proof. reflexivity. Qed.

Example make_date_2025 : make_date 2025 1 1 = 9132.
Proof. reflexivity. Qed.

Example j2date_2025 : j2date (9132 + POSTGRES_EPOCH_JDATE) = (2025, 1, 1).
Proof. reflexivity. Qed.

Example year_before_leap_day :
  timestamp_mi_interval (make_date 2024 2 29 * USECS_PER_DAY + 5) (interval_years 1)
  = make_date 2023 2 28 * USECS_PER_DAY + 5.
Proof. reflexivity. Qed.

Example varchar_fits : varchar 16 "session_id" "demo001" = Ok "demo001"%string.
Proof. reflexivity. Qed.

Example varchar_too_long :
  varchar 16 "session_id" "0123456789abcdefX"
  = Err (string_data_right_truncation "session_id").
Proof. reflexivity. Qed.

Example varchar_trailing_spaces :
  varchar 16 "session_id" "0123456789abcdef  " = Ok "0123456789abcdef"%string.
Proof. reflexivity. Qed.

Example j2date_leap_day : j2date (date2j 2024 2 29) = (2024, 2, 29).
Proof. reflexivity. Qed.

Example DATE_before_epoch : DATE (-1) = make_date 1999 12 31.
Proof. reflexivity. Qed.

Example thirty_days_before :
  timestamp_mi_interval (make_date 2025 1 31 * USECS_PER_DAY) (interval_days 30)
  = make_date 2025 1 1 * USECS_PER_DAY.
Proof. reflexivity. Qed.

(** The seed on the empty database, at noon of 2025-01-01: three rows, one
    day in the view. *)
Example seed_daily_stats :
  daily_stats
    (db_demo_sessions
       (seed (make_date 2025 1 1 * USECS_PER_DAY + 12 * USECS_PER_HOUR)
          empty_database).1)
  = [ {| daily_stats.date := Some (make_date 2025 1 1);
         daily_stats.total_sessions := 3;
         daily_stats.successful_extractions := 3;
         daily_stats.jira_tickets := 2;
         daily_stats.avg_quality :=
           Some (S754_finite false 7656119366529843 (-53));
         daily_stats.avg_latency_ms := Some (6400 # 1)%Q |} ].
Proof. vm_compute. reflexivity. Qed.

(** ** The result monad *)

Lemma bind_Ok {A B} (m : result A) (k : A -> result B) (b : B) :
  m ≫= k = Ok b <-> exists a, m = Ok a /\ k a = Ok b.
Proof.
  destruct m as [a|e]; simpl; split.
  - intros H. exists a. auto.
  - intros (a' & Ha & Hk). congruence.
  - intros H. discriminate H.
  - intros (a' & Ha & _). discriminate Ha.
Qed.

Lemma bind_Err {A B} (m : result A) (k : A -> result B) (e : sqlstate) :
  m ≫= k = Err e <-> m = Err e \/ exists a, m = Ok a /\ k a = Err e.
Proof.
  destruct m as [a|e']; simpl; split.
  - intros H. right. exists a. auto.
  - intros [H | (a' & Ha & Hk)]; congruence.
  - intros H. left. congruence.
  - intros [H | (a' & Ha & _)]; [congruence | discriminate Ha].
Qed.

(** ** Deletion *)

Lemma sql_lt_true (ts : option timestamp) (c : timestamp) :
  sql_is_true (sql_lt ts c) = true <-> exists t, ts = Some t /\ t < c.
Proof.
  destruct ts as [t|]; simpl.
  - destruct (Z.ltb_spec t c); split.
    + intros _. exists t. auto.
    + reflexivity.
    + discriminate.
    + intros (t' & [= <-] & Hlt). lia.
  - split; [discriminate | intros (t & Ht & _); discriminate Ht].
Qed.

Lemma elem_of_DELETE_WHERE {A} (cond : A -> option bool) (t : list A) (r : A) :
  r ∈ DELETE_WHERE cond t <-> r ∈ t /\ sql_is_true (cond r) <> true.
Proof.
  unfold DELETE_WHERE. rewrite list_elem_of_filter.
  destruct (sql_is_true (cond r)); intuition congruence.
Qed.

Lemma days_before (now n : Z) :
  timestamp_mi_interval now (interval_days n) = now - n * USECS_PER_DAY.
Proof.
  unfold timestamp_mi_interval, timestamp_pl_interval, interval_days. simpl. lia.
Qed.

Lemma deleted_iff_older_days (n : Z) (now : timestamp) (ts : option timestamp) :
  sql_is_true (sql_lt ts (timestamp_mi_interval now (interval_days n))) = true
  <-> older_than_days n now ts.
Proof.
  rewrite sql_lt_true, days_before. unfold older_than_days.
  split; intros (t & Ht & Hlt); exists t; split; auto; lia.
Qed.

Lemma deleted_iff_older_years (n : Z) (now : timestamp) (ts : option timestamp) :
  sql_is_true (sql_lt ts (timestamp_mi_interval now (interval_years n))) = true
  <-> older_than_years n now ts.
Proof. apply sql_lt_true. Qed.

(** ** Retention *)

Lemma stale_database_rows :
  db_demo_sessions stale_database
  = [ {| demo_sessions.id := 1;
         demo_sessions.session_id := "s-old";
         demo_sessions.file_name := "a.pdf";
         demo_sessions.file_size := 1024;
         demo_sessions.file_hash := Some "h1"%string;
         demo_sessions.extraction_success := Some false;
         demo_sessions.jira_ticket_created := Some false;
         demo_sessions.jira_ticket_key := None;
         demo_sessions.quality_score := None;
         demo_sessions.latency_ms := None;
         demo_sessions.error_message := None;
         demo_sessions.ip_address := None;
         demo_sessions.user_agent := None;
         demo_sessions.created_at := Some (retention_now - 40 * USECS_PER_DAY) |} ]
  /\ db_extraction_cache stale_database
  = [ {| extraction_cache.id := 1;
         extraction_cache.file_hash := "h1";
         extraction_cache.extraction_result := "[1]"%string;
         extraction_cache.confidence_score := None;
         extraction_cache.created_at := Some (retention_now - 10 * USECS_PER_DAY);
         extraction_cache.accessed_at := Some (retention_now - 10 * USECS_PER_DAY);
         extraction_cache.access_count := Some 1 |} ].
Proof. split; vm_compute; reflexivity. Qed.




(** The windows are strict: the row of exactly thirty days stays, the one a
    microsecond older goes; the year is the calendar year. *)
Example runRetention_boundaries :
  RetentionManager.runRetention retention_now boundary_database
  = {| db_demo_sessions :=
         [ session_created_at 1 "s-30d" (retention_now - 30 * USECS_PER_DAY) ];
       db_demo_sessions_id_seq := 2;
       db_extraction_cache := [];
       db_extraction_cache_id_seq := 0;
       db_quality_metrics :=
         [ metrics_created_at 1 (make_date 2024 3 1)
             one_year_before_retention_now ] |}.
Proof. vm_compute. reflexivity. Qed.

(** A session of twenty days that refers to an evicted entry stays. *)
Example runRetention_keeps_recent_session :
  let db :=
    (CacheStore.put (retention_now - 10 * USECS_PER_DAY) "h1" "[1]" None
       (SessionLedger.append (retention_now - 20 * USECS_PER_DAY)
          (plain_session "s-new" "a.pdf" 1024 (Some "h1"%string))
          empty_database).1).1 in
  db_extraction_cache (RetentionManager.runRetention retention_now db) = []
  /\ db_demo_sessions (RetentionManager.runRetention retention_now db)
     = db_demo_sessions db
  /\ session_ids db = ["s-new"%string].
Proof. repeat split; vm_compute; reflexivity. Qed.

(** ** The view *)

Lemma daily_stats_dates (t : list demo_sessions.row) :
  daily_stats.date <$> daily_stats t
  = merge_sort date_desc (remove_dups (group_key <$> t)).
Proof.
  unfold daily_stats. rewrite <- list_fmap_compose.
  rewrite <- (list_fmap_id (merge_sort _ _)) at 2.
  apply list_fmap_ext. intros i k _. reflexivity.
Qed.

(** One row per date. *)
Lemma daily_stats_NoDup (t : list demo_sessions.row) :
  NoDup (daily_stats.date <$> daily_stats t).
Proof.
  rewrite daily_stats_dates, merge_sort_Permutation. apply NoDup_remove_dups.
Qed.

(** The rows of the view are the aggregates of the groups that occur. *)
Lemma elem_of_daily_stats (t : list demo_sessions.row) (row : daily_stats.row) :
  row ∈ daily_stats t
  <-> exists k, k ∈ group_key <$> t /\ row = aggregate k (group_of k t).
Proof.
  unfold daily_stats. rewrite list_elem_of_fmap.
  split; intros (k & H1 & H2); exists k.
  - rewrite merge_sort_Permutation, elem_of_remove_dups in H2. auto.
  - rewrite merge_sort_Permutation, elem_of_remove_dups. auto.
Qed.

(** Most recent date first. *)
Lemma daily_stats_sorted (t : list demo_sessions.row) :
  Sorted date_desc (daily_stats.date <$> daily_stats t).
Proof.
  rewrite daily_stats_dates. apply Sorted_merge_sort.
  intros [x|] [y|]; simpl; auto. lia.
Qed.

Lemma COUNT_FILTER_bounds {A} (cond : A -> option bool) (g : list A) :
  0 <= COUNT_FILTER cond g <= COUNT g.
Proof.
  unfold COUNT_FILTER, COUNT.
  pose proof (length_filter (fun r => sql_is_true (cond r) = true) g). lia.
Qed.

(** C3, as stated, fails: for the ledger that holds the one record
    [ticket_without_success] the view counts one ticket and no success. *)
Lemma daily_stats_more_tickets_than_successes :
  exists row,
    row ∈ daily_stats
            (db_demo_sessions
               (SessionLedger.append noon_2025_01_01 ticket_without_success
                  empty_database).1)
    /\ daily_stats.total_sessions row = 1
    /\ daily_stats.successful_extractions row = 0
    /\ daily_stats.jira_tickets row = 1
    /\ (daily_stats.jira_tickets row <=? daily_stats.successful_extractions row)
       = false.
Proof.
  eexists. split.
  - vm_compute. apply list_elem_of_here.
  - repeat split; reflexivity.
Qed.

(** C3, amended.  In every row of [daily_stats], over any ledger, the count
    of successes and the count of tickets are each between zero and the
    count of sessions. *)
Theorem daily_stats_counts_within_total
    (t : list demo_sessions.row) (row : daily_stats.row) :
  row ∈ daily_stats t ->
  0 <= daily_stats.successful_extractions row <= daily_stats.total_sessions row
  /\ 0 <= daily_stats.jira_tickets row <= daily_stats.total_sessions row.
Proof.
  rewrite elem_of_daily_stats. intros (k & _ & ->). simpl.
  split; apply COUNT_FILTER_bounds.
Qed.

Lemma daily_stats_counts_within_total_witness :
  let t := db_demo_sessions (seed noon_2025_01_01 empty_database).1 in
  let row := aggregate (Some (make_date 2025 1 1))
               (group_of (Some (make_date 2025 1 1)) t) in
  row ∈ daily_stats t
  /\ (0 <= daily_stats.successful_extractions row <= daily_stats.total_sessions row
      /\ 0 <= daily_stats.jira_tickets row <= daily_stats.total_sessions row).
Proof.
  assert (H : aggregate (Some (make_date 2025 1 1))
                (group_of (Some (make_date 2025 1 1))
                   (db_demo_sessions (seed noon_2025_01_01 empty_database).1))
              ∈ daily_stats
                  (db_demo_sessions (seed noon_2025_01_01 empty_database).1)).
  { vm_compute. apply list_elem_of_here. }
  split; [exact H |].
  exact (daily_stats_counts_within_total _ _ H).
Defined.

(** *** Aggregates do not depend on the order of the rows *)

Lemma length_filter_fmap {A B} (f : A -> B) (P : B -> Prop)
    `{!forall y, Decision (P y)} (l : list A) :
  length (filter (fun x => P (f x)) l) = length (filter P (f <$> l)).
Proof.
  induction l as [|a l IH]; [reflexivity |].
  rewrite fmap_cons, !filter_cons.
  destruct (decide (P (f a))); simpl; rewrite IH; reflexivity.
Qed.

Lemma COUNT_FILTER_flags (g : list demo_sessions.row)
    (col : demo_sessions.row -> option bool) (flags : list (option bool)) :
  col <$> g ≡ₚ flags ->
  COUNT_FILTER (fun r => sql_eq_bool (col r) true) g
  = COUNT_FILTER (fun b => sql_eq_bool b true) flags.
Proof.
  intros Hp. unfold COUNT_FILTER. f_equal.
  etransitivity;
    [exact (length_filter_fmap col
              (fun b => sql_is_true (sql_eq_bool b true) = true) g) |].
  rewrite Hp. reflexivity.
Qed.

Lemma sum_Permutation (l1 l2 : list Z) :
  l1 ≡ₚ l2 -> foldr Z.add 0 l1 = foldr Z.add 0 l2.
Proof. induction 1; simpl; lia. Qed.

Lemma AVG_int4_Permutation (xs ys : list (option Z)) :
  xs ≡ₚ ys -> AVG_int4 xs = AVG_int4 ys.
Proof.
  intros Hp. unfold AVG_int4.
  assert (Hv : omap id xs ≡ₚ omap id ys) by (rewrite Hp; reflexivity).
  destruct (omap id xs) as [|x vs], (omap id ys) as [|y ws].
  - reflexivity.
  - apply Permutation_nil in Hv. discriminate Hv.
  - symmetry in Hv. apply Permutation_nil in Hv. discriminate Hv.
  - rewrite (sum_Permutation _ _ Hv), (Permutation_length Hv). reflexivity.
Qed.

(** C7.  Whenever the sessions of the ledger dated 2025-01-01 are exactly
    three, with success flags true, true, false and latencies 100, 200, 300
    ms in any order, [daily_stats] has one row for 2025-01-01, and it counts
    3 sessions, 2 successes and an average latency of 200. *)
Theorem daily_stats_three_sessions (t : list demo_sessions.row) :
  let d := Some (make_date 2025 1 1) in
  demo_sessions.extraction_success <$> group_of d t
    ≡ₚ [Some true; Some true; Some false] ->
  demo_sessions.latency_ms <$> group_of d t
    ≡ₚ [Some 100; Some 200; Some 300] ->
  exists row,
    row ∈ daily_stats t
    /\ daily_stats.date row = d
    /\ daily_stats.total_sessions row = 3
    /\ daily_stats.successful_extractions row = 2
    /\ daily_stats.avg_latency_ms row = Some (200 # 1)%Q
    /\ forall row', row' ∈ daily_stats t -> daily_stats.date row' = d ->
                    row' = row.
Proof.
  intros d Hflags Hlat.
  exists (aggregate d (group_of d t)).
  assert (Hlen : length (group_of d t) = 3%nat).
  { rewrite <- (length_fmap demo_sessions.latency_ms).
    rewrite (Permutation_length Hlat). reflexivity. }
  split; [| split; [| split; [| split; [| split]]]].
  - apply elem_of_daily_stats. exists d. split; [| reflexivity].
    destruct (group_of d t) as [|r g] eqn:E; [discriminate Hlen |].
    assert (Hr : r ∈ group_of d t) by (rewrite E; apply list_elem_of_here).
    unfold group_of in Hr. apply list_elem_of_filter in Hr as [Hk Hr].
    apply list_elem_of_fmap. exists r. split; [symmetry; exact Hk | exact Hr].
  - reflexivity.
  - simpl. unfold COUNT. rewrite Hlen. reflexivity.
  - simpl. rewrite (COUNT_FILTER_flags _ _ _ Hflags). reflexivity.
  - simpl. rewrite (AVG_int4_Permutation _ _ Hlat). reflexivity.
  - intros row' Hin Hd. apply elem_of_daily_stats in Hin as (k & _ & ->).
    simpl in Hd. subst k. reflexivity.
Qed.

Lemma daily_stats_three_sessions_witness :
  let t := db_demo_sessions scenario_database in
  let d := Some (make_date 2025 1 1) in
  demo_sessions.extraction_success <$> group_of d t
    ≡ₚ [Some true; Some true; Some false]
  /\ demo_sessions.latency_ms <$> group_of d t
       ≡ₚ [Some 100; Some 200; Some 300]
  /\ exists row,
       row ∈ daily_stats t
       /\ daily_stats.date row = d
       /\ daily_stats.total_sessions row = 3
       /\ daily_stats.successful_extractions row = 2
       /\ daily_stats.avg_latency_ms row = Some (200 # 1)%Q
       /\ forall row', row' ∈ daily_stats t -> daily_stats.date row' = d ->
                       row' = row.
Proof.
  assert (H1 : demo_sessions.extraction_success
                 <$> group_of (Some (make_date 2025 1 1))
                       (db_demo_sessions scenario_database)
               ≡ₚ [Some true; Some true; Some false]).
  { vm_compute. reflexivity. }
  assert (H2 : demo_sessions.latency_ms
                 <$> group_of (Some (make_date 2025 1 1))
                       (db_demo_sessions scenario_database)
               ≡ₚ [Some 100; Some 200; Some 300]).
  { vm_compute. reflexivity. }
  split; [exact H1 |]. split; [exact H2 |].
  exact (daily_stats_three_sessions _ H1 H2).
Defined.

(** The view over the scenario: the later day first. *)
Example scenario_daily_stats :
  daily_stats (db_demo_sessions scenario_database)
  = [ {| daily_stats.date := Some (make_date 2025 1 2);
         daily_stats.total_sessions := 1;
         daily_stats.successful_extractions := 1;
         daily_stats.jira_tickets := 0;
         daily_stats.avg_quality := None;
         daily_stats.avg_latency_ms := Some (900 # 1)%Q |};
      {| daily_stats.date := Some (make_date 2025 1 1);
         daily_stats.total_sessions := 3;
         daily_stats.successful_extractions := 2;
         daily_stats.jira_tickets := 0;
         daily_stats.avg_quality := None;
         daily_stats.avg_latency_ms := Some (200 # 1)%Q |} ].
Proof. vm_compute. reflexivity. Qed.

(** ** Rebuilding the stored metrics *)

Section rebuild.
Import MetricsAggregator.
Variables (rg : date_range) (ledger : list demo_sessions.row).

Lemma elem_of_dated (d : date) (row : daily_stats.row) :
  (d, row) ∈ dated (daily_stats ledger)
  <-> row ∈ daily_stats ledger /\ daily_stats.date row = Some d.
Proof.
  unfold dated. rewrite list_elem_of_omap. split.
  - intros (r & Hr & Hd). destruct (daily_stats.date r) as [d'|] eqn:E;
      simpl in Hd; [| discriminate Hd].
    injection Hd as <- <-. auto.
  - intros [Hr Hd]. exists row. rewrite Hd. auto.
Qed.

Lemma outside_in_range (m : metrics_store) (d : date) :
  in_range rg d -> outside rg m !! d = None.
Proof.
  intros Hd. apply map_lookup_filter_None_2. right.
  intros x _ Hn. exact (Hn Hd).
Qed.

Lemma outside_out_of_range (m : metrics_store) (d : date) :
  ~ in_range rg d -> outside rg m !! d = m !! d.
Proof.
  intros Hd. unfold outside. rewrite map_lookup_filter.
  destruct (m !! d) as [x|]; simpl; [| reflexivity].
  rewrite option_guard_True; [reflexivity | exact Hd].
Qed.

Lemma recomputed_out_of_range (d : date) : ~ in_range rg d -> recomputed rg ledger !! d = None.
Proof.
  intros Hd. apply not_elem_of_list_to_map_1.
  rewrite list_elem_of_fmap. intros ([d' x] & -> & Hin).
  apply list_elem_of_filter in Hin as [Hin _]. exact (Hd Hin).
Qed.

Lemma recomputed_in_range (d : date) (row : daily_stats.row) :
  in_range rg d ->
  recomputed rg ledger !! d = Some row
  <-> row ∈ daily_stats ledger /\ daily_stats.date row = Some d.
Proof.
  intros Hd. unfold recomputed. rewrite <- elem_of_list_to_map'.
  - rewrite list_elem_of_filter, elem_of_dated. simpl. tauto.
  - intros row'. rewrite !list_elem_of_filter, !elem_of_dated.
    intros [_ [H1 E1]] [_ [H2 E2]].
    apply elem_of_daily_stats in H1 as (k1 & _ & ->).
    apply elem_of_daily_stats in H2 as (k2 & _ & ->).
    simpl in E1, E2. congruence.
Qed.

(** C6.  Rebuilding a range a second time over the same ledger changes
    nothing; inside the range the stored rows are those of [daily_stats]
    over the ledger, whatever was stored before. *)
Theorem rebuild_twice_is_rebuild_once (m : metrics_store) :
  rebuild rg ledger (rebuild rg ledger m) = rebuild rg ledger m
  /\ (forall m' d, in_range rg d ->
        rebuild rg ledger m !! d = rebuild rg ledger m' !! d)
  /\ (forall d row, in_range rg d ->
        (rebuild rg ledger m !! d = Some row
         <-> row ∈ daily_stats ledger /\ daily_stats.date row = Some d))
  /\ (forall d, ~ in_range rg d -> rebuild rg ledger m !! d = m !! d).
Proof.
  assert (Hin : forall m d, in_range rg d ->
                  rebuild rg ledger m !! d = recomputed rg ledger !! d).
  { intros m0 d Hd. unfold rebuild. apply lookup_union_l.
    apply (outside_in_range m0 d Hd). }
  assert (Hout : forall m d, ~ in_range rg d ->
                   rebuild rg ledger m !! d = m !! d).
  { intros m0 d Hd. unfold rebuild.
    rewrite lookup_union_r by (apply recomputed_out_of_range; exact Hd).
    apply (outside_out_of_range m0 d Hd). }
  split; [| split; [| split]].
  - apply map_eq. intros d. destruct (decide (in_range rg d)) as [Hd|Hd].
    + rewrite !Hin by exact Hd. reflexivity.
    + rewrite Hout by exact Hd. reflexivity.
  - intros m' d Hd. rewrite !Hin by exact Hd. reflexivity.
  - intros d row Hd. rewrite Hin by exact Hd. apply recomputed_in_range. exact Hd.
  - exact (Hout m).
Qed.

End rebuild.

(** Rebuilding January 2025 over the scenario, into an empty store and into
    the store it has just built: the two days, each time. *)
Example rebuild_scenario :
  let rg := MetricsAggregator.mk_range (make_date 2025 1 1) (make_date 2025 1 31) in
  let t := db_demo_sessions scenario_database in
  map_to_list (MetricsAggregator.rebuild rg t ∅)
  = map_to_list
      (MetricsAggregator.rebuild rg t (MetricsAggregator.rebuild rg t ∅))
  /\ size (MetricsAggregator.rebuild rg t ∅) = 2%nat.
Proof. split; vm_compute; reflexivity. Qed.

(** ** The cache *)

Section cache.
Import extraction_cache CacheStore.

Lemma lookup_Some (h : string) (t : list row) (e : row) :
  lookup h t = Some e -> e ∈ t /\ file_hash e = h.
Proof.
  unfold lookup. intros H.
  assert (He : e ∈ filter (fun r => file_hash r = h) t).
  { destruct (filter _ t) as [|x l]; [discriminate H |].
    injection H as ->. apply list_elem_of_here. }
  apply list_elem_of_filter in He. tauto.
Qed.

Lemma lookup_app_miss (h : string) (t : list row) (r : row) :
  lookup h t = None -> file_hash r = h -> lookup h (t ++ [r]) = Some r.
Proof.
  unfold lookup. intros H Hr. rewrite filter_app.
  destruct (filter _ t) as [|x l]; [| discriminate H]. simpl.
  rewrite filter_cons. destruct (decide (file_hash r = h)); [reflexivity | tauto].
Qed.

(** The statement of [get] keeps every row under its hash, so that it
    returns the touched form of the entry a lookup finds. *)
Lemma lookup_touched (now : timestamp) (h : string) (t : list row) :
  lookup h ((fun r => if decide (file_hash r = h) then touch now r else r) <$> t)
  = touch now <$> lookup h t.
Proof.
  unfold lookup. induction t as [|r t IH]; [reflexivity |].
  rewrite fmap_cons, !filter_cons.
  destruct (decide (file_hash r = h)) as [E|E]; simpl.
  - rewrite decide_True by exact E. reflexivity.
  - rewrite decide_False by exact E. exact IH.
Qed.

Lemma get_hit (now : timestamp) (h : string) (db : database) (e : row) :
  lookup h (db_extraction_cache db) = Some e ->
  (get now h db).2 = Some (touch now e)
  /\ lookup h (db_extraction_cache (get now h db).1) = Some (touch now e).
Proof.
  intros H. unfold get; simpl. rewrite lookup_touched, H. auto.
Qed.

(** A read changes the access fields only. *)
Lemma get_preserves_payload (now : timestamp) (h : string) (db : database) :
  extraction_result <$> db_extraction_cache (get now h db).1
  = extraction_result <$> db_extraction_cache db
  /\ confidence_score <$> db_extraction_cache (get now h db).1
     = confidence_score <$> db_extraction_cache db.
Proof.
  unfold get; simpl. rewrite <- !list_fmap_compose.
  split; apply list_fmap_ext; intros i r _; simpl;
    destruct (decide (file_hash r = h)); reflexivity.
Qed.

Lemma varchar_fits_Ok (n : nat) (column s : string) :
  (String.length s <= n)%nat -> varchar n column s = Ok s.
Proof. intros H. unfold varchar. rewrite decide_True by exact H. reflexivity. Qed.

(** What a successful [put] leaves under the hash. *)
Lemma put_Some (now : timestamp) (h : string) (R : jsonb) (C : option float8)
    (db db1 : database) (e : row) :
  (String.length h <= 64)%nat ->
  put now h R C db = (db1, inr e) ->
  lookup h (db_extraction_cache db1) = Some e
  /\ extraction_result e = R
  /\ (lookup h (db_extraction_cache db) = None ->
      confidence_score e = C /\ access_count e = Some 1
      /\ created_at e = Some now /\ accessed_at e = Some now).
Proof.
  intros Hlen. unfold put.
  destruct (lookup h (db_extraction_cache db)) as [e0|] eqn:El.
  - destruct (decide (extraction_result e0 = R)) as [E|E]; intros [= <- <-].
    split; [exact El |]. split; [exact E |]. intros H; discriminate H.
  - unfold INSERT, new_row. simpl.
    rewrite (varchar_fits_Ok _ _ _ Hlen). simpl.
    match goal with
    | |- context [decide (conflicts ?t ?r)] => destruct (decide (conflicts t r))
    end; simpl; intros [= <- <-]. simpl.
    split; [apply lookup_app_miss; [exact El | reflexivity] |].
    split; [reflexivity |]. intros _. auto.
Qed.
End cache.

Section cache_claims.
Import extraction_cache CacheStore.

(** C1.  For a hash that has an entry, [put] fails with [ConflictError]
    exactly when the result differs from the stored one; with the stored
    result it returns the entry and leaves the database as it was: no new
    row, [access_count] unchanged. *)
Theorem put_on_existing_hash (now : timestamp) (h : string) (R2 : jsonb)
    (C2 : option float8) (db : database) (e : row) :
  lookup h (db_extraction_cache db) = Some e ->
  ((put now h R2 C2 db).2 = inl ConflictError <-> R2 <> extraction_result e)
  /\ (R2 = extraction_result e -> put now h R2 C2 db = (db, inr e))
  /\ (put now h R2 C2 db).1 = db.
Proof.
  intros H. unfold put. rewrite H.
  destruct (decide (extraction_result e = R2)) as [E|E]; simpl.
  - split; [| split]; [split | |]; try congruence; auto.
  - split; [| split]; [split | |]; try congruence; auto.
Qed.

Lemma put_on_existing_hash_witness :
  lookup "h1" (db_extraction_cache one_entry_database) = Some h1_entry
  /\ (((put (noon_2025_01_01 + 1) "h1" "[2]" (Some (f8_tenths 9))
          one_entry_database).2 = inl ConflictError
       <-> "[2]"%string <> extraction_result h1_entry)
      /\ ("[2]"%string = extraction_result h1_entry ->
          put (noon_2025_01_01 + 1) "h1" "[2]" (Some (f8_tenths 9))
            one_entry_database
          = (one_entry_database, inr h1_entry))
      /\ (put (noon_2025_01_01 + 1) "h1" "[2]" (Some (f8_tenths 9))
            one_entry_database).1 = one_entry_database).
Proof.
  assert (H : lookup "h1" (db_extraction_cache one_entry_database)
              = Some h1_entry) by (vm_compute; reflexivity).
  split; [exact H |].
  exact (put_on_existing_hash (noon_2025_01_01 + 1) "h1" "[2]"
           (Some (f8_tenths 9)) one_entry_database h1_entry H).
Defined.

(** The two scenarios of the spec: the same payload again, another one. *)
Example put_same_payload_twice :
  put (noon_2025_01_01 + 1) "h1" "[1]" (Some (f8_tenths 9)) one_entry_database
  = (one_entry_database, inr h1_entry).
Proof. vm_compute. reflexivity. Qed.

Example put_other_payload :
  put (noon_2025_01_01 + 1) "h1" "[2]" (Some (f8_tenths 9)) one_entry_database
  = (one_entry_database, inl ConflictError).
Proof. vm_compute. reflexivity. Qed.

Lemma gets_cons (now : timestamp) (ts : list timestamp) (h : string)
    (db : database) :
  (gets (now :: ts) h db).2
  = (get now h db).2 :: (gets ts h (get now h db).1).2.
Proof.
  cbn [gets]. destruct (get now h db) as [db1 r1]. cbn [fst snd].
  destruct (gets ts h db1) as [db2 rs]. reflexivity.
Qed.

Lemma gets_hit (h : string) (ts : list timestamp) :
  forall (db : database) (e : row),
    lookup h (db_extraction_cache db) = Some e ->
    forall (i : nat) (t : timestamp),
      ts !! i = Some t ->
      exists r,
        (gets ts h db).2 !! i = Some (Some r)
        /\ extraction_result r = extraction_result e
        /\ confidence_score r = confidence_score e
        /\ access_count r = (fun c => c + Z.of_nat (S i)) <$> access_count e
        /\ accessed_at r = Some t
        /\ file_hash r = file_hash e
        /\ created_at r = created_at e.
Proof.
  induction ts as [|now ts IH]; intros db e He i t Hi; [discriminate Hi |].
  destruct (get_hit now h db e He) as [Hr Hl].
  rewrite gets_cons, Hr.
  destruct i as [|j]; cbn [lookup list_lookup] in Hi |- *.
  - injection Hi as ->. exists (touch t e).
    repeat split; reflexivity.
  - destruct (IH _ (touch now e) Hl j t Hi)
      as (r & Hrs & H1 & H2 & H3 & H4 & H5 & H6).
    exists r. repeat split; auto.
    rewrite H3. cbn [touch access_count].
    destruct (access_count e) as [c|]; [| reflexivity].
    cbn. apply (f_equal Some). lia.
Qed.



(** Three reads of the entry: the counts 2, 3, 4. *)
Example three_gets :
  (fun r : option row => access_count <$> r)
    <$> (gets [noon_2025_01_01 + 10; noon_2025_01_01 + 20; noon_2025_01_01 + 30]
           "h1" one_entry_database).2
  = [Some (Some 2); Some (Some 3); Some (Some 4)].
Proof. vm_compute. reflexivity. Qed.

Example get_miss :
  (get noon_2025_01_01 "h2" one_entry_database).2 = None.
Proof. vm_compute. reflexivity. Qed.
End cache_claims.

(** ** The ledger *)

Section ledger.
Import demo_sessions.

Lemma length_str_take (n : nat) (s : string) :
  (String.length (str_take n s) <= n)%nat.
Proof.
  unfold str_take. revert s.
  induction n as [|n IH]; intros [|c s]; simpl; try lia.
  specialize (IH s). lia.
Qed.

Lemma varchar_Ok_length (n : nat) (column s s' : string) :
  varchar n column s = Ok s' -> (String.length s' <= n)%nat.
Proof.
  unfold varchar. destruct (decide (String.length s <= n)%nat) as [H|H].
  - intros [= <-]. exact H.
  - destruct (all_spaces (str_drop n s)); intros [= <-].
    apply length_str_take.
Qed.

Lemma varchar_Ok_inv (n : nat) (column s s' : string) :
  varchar n column s = Ok s' ->
  (String.length s <= n)%nat /\ s' = s
  \/ (n < String.length s)%nat /\ all_spaces (str_drop n s) = true
     /\ s' = str_take n s.
Proof.
  unfold varchar. destruct (decide (String.length s <= n)%nat) as [H|H].
  - intros [= <-]. auto.
  - destruct (all_spaces (str_drop n s)) eqn:E; intros [= <-].
    right. split; [lia | auto].
Qed.

Lemma varchar_too_long_Err (n : nat) (column s : string) :
  (n < String.length s)%nat -> all_spaces (str_drop n s) = false ->
  varchar n column s = Err (string_data_right_truncation column).
Proof.
  intros H E. unfold varchar. rewrite decide_False by lia. rewrite E. reflexivity.
Qed.

Lemma coerce_varchar_fits (n : nat) (column : string) (a : option string) :
  fits_varchar n a -> coerce (varchar n column) a = Ok a.
Proof.
  intros H. destruct a as [s|]; simpl; [| reflexivity].
  rewrite varchar_fits_Ok by (apply H; reflexivity). reflexivity.
Qed.

Lemma coerce_int4_fits (column : string) (a : option Z) :
  fits_int4 a -> coerce (int4 column) a = Ok a.
Proof.
  intros H. destruct a as [z|]; simpl; [| reflexivity].
  unfold int4. rewrite (H z eq_refl). reflexivity.
Qed.

(** The errors of the column checks are all of the malformed kind. *)
Lemma coerce_varchar_Err (n : nat) (column : string) (a : option string)
    (e : sqlstate) :
  coerce (varchar n column) a = Err e -> ledger_error e = ValidationError.
Proof.
  destruct a as [s|]; simpl; [| discriminate]. unfold varchar.
  destruct (decide _); simpl; [discriminate |].
  destruct (all_spaces _); simpl; [discriminate |].
  intros [= <-]. reflexivity.
Qed.

Lemma coerce_int4_Err (column : string) (a : option Z) (e : sqlstate) :
  coerce (int4 column) a = Err e -> ledger_error e = ValidationError.
Proof.
  destruct a as [z|]; simpl; [| discriminate]. unfold int4.
  destruct (in_int4 z); simpl; [discriminate |].
  intros [= <-]. reflexivity.
Qed.

Lemma not_null_Err {A} (column : string) (a : option A) (e : sqlstate) :
  not_null column a = Err e -> ledger_error e = ValidationError.
Proof. destruct a; simpl; [discriminate |]. intros [= <-]. reflexivity. Qed.

Lemma new_row_Err (now : timestamp) (next_id : Z) (v : VALUES.t) (e : sqlstate) :
  new_row now next_id v = Err e -> ledger_error e = ValidationError.
Proof.
  unfold new_row. intros H.
  repeat (apply bind_Err in H as [H | (? & _ & H)];
          [eauto using coerce_varchar_Err, coerce_int4_Err, @not_null_Err |]).
  discriminate H.
Qed.

(** The session id of the row an [INSERT] builds is the supplied one as
    [VARCHAR(16)] holds it. *)
Lemma new_row_session_id (now : timestamp) (next_id : Z) (v : VALUES.t) (r : row) :
  new_row now next_id v = Ok r ->
  exists sid,
    arg_value None (VALUES.session_id v) = Some sid
    /\ varchar 16 "session_id" sid = Ok (session_id r).
Proof.
  unfold new_row. intros H.
  apply bind_Ok in H as (sid & Hsid & H).
  do 6 (apply bind_Ok in H as (? & _ & H)).
  apply bind_Ok in H as (sid' & Hnn & H).
  do 2 (apply bind_Ok in H as (? & _ & H)).
  injection H as <-. simpl.
  destruct (arg_value None (VALUES.session_id v)) as [s|]; simpl in Hsid.
  - exists s. split; [reflexivity |].
    destruct (varchar 16 "session_id" s) as [s'|]; simpl in Hsid;
      [| discriminate Hsid].
    injection Hsid as <-. exact Hnn.
  - injection Hsid as <-. discriminate Hnn.
Qed.

(** A record that fits the columns is built as it was supplied. *)
Lemma new_row_fits (now : timestamp) (next_id : Z) (v : VALUES.t) :
  fits_columns v ->
  exists r,
    new_row now next_id v = Ok r
    /\ Some (session_id r) = arg_value None (VALUES.session_id v)
    /\ Some (file_name r) = arg_value None (VALUES.file_name v)
    /\ Some (file_size r) = arg_value None (VALUES.file_size v)
    /\ quality_score r = arg_value None (VALUES.quality_score v)
    /\ latency_ms r = arg_value None (VALUES.latency_ms v)
    /\ file_hash r = arg_value None (VALUES.file_hash v)
    /\ created_at r = arg_value (Some now) (VALUES.created_at v)
    /\ id r = next_id.
Proof.
  intros ([sid Hsid] & F1 & [fname Hfname] & F2 & [fsize Hfsize] & F3
          & F4 & F5 & F6 & F7).
  unfold new_row.
  rewrite (coerce_varchar_fits _ _ _ F1), (coerce_varchar_fits _ _ _ F2),
    (coerce_int4_fits _ _ F3), (coerce_varchar_fits _ _ _ F4),
    (coerce_varchar_fits _ _ _ F5), (coerce_int4_fits _ _ F6),
    (coerce_varchar_fits _ _ _ F7).
  simpl. rewrite Hsid, Hfname, Hfsize. simpl.
  eexists. split; [reflexivity |]. simpl. repeat split; reflexivity.
Qed.

(** The three ways an [append] ends. *)
Lemma append_cases (now : timestamp) (v : VALUES.t) (db : database) :
  let next_id := db_demo_sessions_id_seq db + 1 in
  let t := db_demo_sessions db in
  (exists e, new_row now next_id v = Err e
             /\ SessionLedger.append now v db
                = (set_demo_sessions t next_id db, Some ValidationError))
  \/ (exists r, new_row now next_id v = Ok r
                /\ (session_id r ∈ session_ids db)
                /\ SessionLedger.append now v db
                   = (set_demo_sessions t next_id db,
                      Some DuplicateSessionError))
  \/ (exists r, new_row now next_id v = Ok r
                /\ (session_id r ∉ session_ids db)
                /\ SessionLedger.append now v db
                   = (set_demo_sessions (t ++ [r]) next_id db, None)).
Proof.
  intros next_id t.
  unfold SessionLedger.append, insert_session, INSERT. fold next_id t.
  destruct (new_row now next_id v) as [r|e] eqn:E; simpl.
  - destruct (decide (conflicts t r)) as [Hc|Hc]; simpl.
    + right; left. exists r. auto.
    + right; right. exists r. auto.
  - left. exists e. rewrite (new_row_Err _ _ _ _ E). auto.
Qed.
End ledger.

(** ** The constraints hold in every state the operations reach *)


Lemma NoDup_snoc {A} (l : list A) (x : A) :
  NoDup l -> x ∉ l -> NoDup (l ++ [x]).
Proof.
  intros Hl Hx. apply NoDup_app. split; [exact Hl |].
  split; [| apply NoDup_singleton].
  intros y Hy Hy'. apply list_elem_of_singleton in Hy' as ->. exact (Hx Hy).
Qed.

Lemma new_row_id (now : timestamp) (next_id : Z) (v : demo_sessions.VALUES.t)
    (r : demo_sessions.row) :
  demo_sessions.new_row now next_id v = Ok r -> demo_sessions.id r = next_id.
Proof.
  unfold demo_sessions.new_row. intros H.
  do 10 (apply bind_Ok in H as (? & _ & H)).
  injection H as <-. reflexivity.
Qed.

Lemma rows_wf_bump (t : list demo_sessions.row) (seq : Z) :
  rows_wf t seq -> rows_wf t (seq + 1).
Proof.
  intros (H1 & H2 & H3). split; [exact H1 |]. split; [exact H2 |].
  eapply Forall_impl; [exact H3 |]. simpl. intros r [? ?]. split; [lia | auto].
Qed.

Lemma rows_wf_snoc (now : timestamp) (v : demo_sessions.VALUES.t)
    (t : list demo_sessions.row) (seq : Z) (r : demo_sessions.row) :
  rows_wf t seq ->
  demo_sessions.new_row now (seq + 1) v = Ok r ->
  ~ demo_sessions.conflicts t r ->
  rows_wf (t ++ [r]) (seq + 1).
Proof.
  intros (H1 & H2 & H3) Hr Hc.
  pose proof (new_row_id _ _ _ _ Hr) as Hid.
  apply new_row_session_id in Hr as (sid & _ & Hv).
  apply varchar_Ok_length in Hv.
  split; [| split].
  - rewrite fmap_app. apply NoDup_snoc; [exact H1 | exact Hc].
  - rewrite fmap_app. apply NoDup_snoc; [exact H2 |]. simpl.
    rewrite list_elem_of_fmap. intros (r0 & Heq & Hin).
    rewrite Forall_forall in H3. destruct (H3 r0 Hin) as [Hle _]. lia.
  - apply Forall_app. split.
    + eapply Forall_impl; [exact H3 |]. simpl. intros r0 [? ?]. split; [lia | auto].
    + apply Forall_singleton. split; [lia | exact Hv].
Qed.

Lemma rows_wf_sublist (t t' : list demo_sessions.row) (seq : Z) :
  t' `sublist_of` t -> rows_wf t seq -> rows_wf t' seq.
Proof.
  intros Hs (H1 & H2 & H3). split; [| split].
  - apply (sublist_NoDup _ (demo_sessions.session_id <$> t)); [exact H1 |].
    apply fmap_sublist. exact Hs.
  - apply (sublist_NoDup _ (demo_sessions.id <$> t)); [exact H2 |].
    apply fmap_sublist. exact Hs.
  - rewrite Forall_forall in H3 |- *. intros r Hr. apply H3.
    eapply elem_of_submseteq; [exact Hr |]. apply sublist_submseteq. exact Hs.
Qed.

Lemma insert_each_do_nothing_wf (now : timestamp)
    (vs : list demo_sessions.VALUES.t) :
  forall (seq : Z) (t : list demo_sessions.row),
    rows_wf t seq ->
    rows_wf t (insert_each_do_nothing now vs seq t).1
    /\ forall t', (insert_each_do_nothing now vs seq t).2 = Ok t' ->
                  rows_wf t' (insert_each_do_nothing now vs seq t).1.
Proof.
  induction vs as [|v vs IH]; intros seq t Hwf; simpl.
  - split; [exact Hwf |]. intros t' [= <-]. exact Hwf.
  - unfold demo_sessions.INSERT_ON_CONFLICT_DO_NOTHING.
    destruct (demo_sessions.new_row now (seq + 1) v) as [r|e] eqn:E; simpl.
    + destruct (decide (demo_sessions.conflicts t r)) as [Hc|Hc]; simpl.
      * apply IH. apply rows_wf_bump. exact Hwf.
      * pose proof (rows_wf_snoc _ _ _ _ _ Hwf E Hc) as Hwf'.
        destruct (IH (seq + 1) (t ++ [r]) Hwf') as [Hbump Hok].
        split; [| exact Hok].
        eapply rows_wf_sublist; [| exact Hbump].
        apply sublist_inserts_r. reflexivity.
    + split; [apply rows_wf_bump; exact Hwf | discriminate].
Qed.

Lemma append_wf (now : timestamp) (v : demo_sessions.VALUES.t) (db : database) :
  ledger_wf db -> ledger_wf (SessionLedger.append now v db).1.
Proof.
  unfold ledger_wf. intros Hwf.
  destruct (append_cases now v db)
    as [(e & _ & ->) | [(r & _ & _ & ->) | (r & Hr & Hfresh & ->)]]; simpl.
  - apply rows_wf_bump. exact Hwf.
  - apply rows_wf_bump. exact Hwf.
  - exact (rows_wf_snoc _ _ _ _ _ Hwf Hr Hfresh).
Qed.

Lemma seed_wf (now : timestamp) (db : database) :
  ledger_wf db -> ledger_wf (seed now db).1.
Proof.
  unfold ledger_wf. intros Hwf.
  unfold seed, insert_sessions_do_nothing.
  destruct (insert_each_do_nothing_wf now (seed_values now) _ _ Hwf)
    as [Hbump Hok].
  destruct (insert_each_do_nothing now (seed_values now)
              (db_demo_sessions_id_seq db) (db_demo_sessions db))
    as [seq' [t'|e]]; simpl in *.
  - apply Hok. reflexivity.
  - exact Hbump.
Qed.

Lemma sublist_DELETE_WHERE {A} (cond : A -> option bool) (t : list A) :
  DELETE_WHERE cond t `sublist_of` t.
Proof. unfold DELETE_WHERE. apply sublist_filter. Qed.

Lemma cleanup_old_data_wf (now : timestamp) (db : database) :
  (ledger_wf db -> ledger_wf (cleanup_old_data now db))
  /\ (cache_wf db -> cache_wf (cleanup_old_data now db)).
Proof.
  split.
  - unfold ledger_wf. simpl. apply rows_wf_sublist, sublist_DELETE_WHERE.
  - intros (H1 & H2 & H3). unfold cache_wf; simpl. split; [| split].
    + apply (sublist_NoDup _ _ H1), fmap_sublist, sublist_DELETE_WHERE.
    + apply (sublist_NoDup _ _ H2), fmap_sublist, sublist_DELETE_WHERE.
    + rewrite Forall_forall in H3 |- *. intros r Hr. apply H3.
      apply elem_of_DELETE_WHERE in Hr. tauto.
Qed.

Lemma cache_new_row_inv (now : timestamp) (next_id : Z)
    (w : extraction_cache.VALUES.t) (e : extraction_cache.row) :
  extraction_cache.new_row now next_id w = Ok e ->
  extraction_cache.id e = next_id
  /\ (String.length (extraction_cache.file_hash e) <= 64)%nat.
Proof.
  unfold extraction_cache.new_row. intros H.
  apply bind_Ok in H as (h & Hh & H).
  apply bind_Ok in H as (? & _ & H).
  apply bind_Ok in H as (h' & Hnn & H).
  apply bind_Ok in H as (? & _ & H).
  injection H as <-. simpl. split; [reflexivity |].
  destruct h as [s|]; [| discriminate Hnn]. injection Hnn as <-.
  destruct (arg_value None (extraction_cache.VALUES.file_hash w)) as [s0|];
    simpl in Hh; [| discriminate Hh].
  destruct (varchar 64 "file_hash" s0) as [s1|] eqn:Ev; simpl in Hh;
    [| discriminate Hh].
  injection Hh as <-. exact (varchar_Ok_length _ _ _ _ Ev).
Qed.

Lemma put_wf (now : timestamp) (h : string) (R : jsonb) (C : option float8)
    (db : database) :
  cache_wf db -> cache_wf (CacheStore.put now h R C db).1.
Proof.
  intros Hwf. pose proof Hwf as (H1 & H2 & H3). unfold CacheStore.put.
  destruct (CacheStore.lookup h (db_extraction_cache db)) as [e|].
  { destruct (decide _); exact Hwf. }
  unfold extraction_cache.INSERT.
  destruct (extraction_cache.new_row _ _ _) as [r|e] eqn:E; simpl.
  - apply cache_new_row_inv in E as [Hid Hlen].
    destruct (decide (extraction_cache.conflicts (db_extraction_cache db) r))
      as [Hc|Hc]; simpl.
    + split; [exact H1 |]. split; [exact H2 |].
      eapply Forall_impl; [exact H3 |]. simpl. intros r0 [? ?]. split; [lia | auto].
    + unfold cache_wf; simpl. split; [| split].
      * rewrite fmap_app. apply NoDup_snoc; [exact H1 | exact Hc].
      * rewrite fmap_app. apply NoDup_snoc; [exact H2 |]. simpl.
        rewrite list_elem_of_fmap. intros (r0 & Heq & Hin).
        rewrite Forall_forall in H3. destruct (H3 r0 Hin) as [Hle _]. lia.
      * apply Forall_app. split.
        -- eapply Forall_impl; [exact H3 |]. simpl. intros r0 [? ?].
           split; [lia | auto].
        -- apply Forall_singleton. split; [lia | exact Hlen].
  - split; [exact H1 |]. split; [exact H2 |].
    eapply Forall_impl; [exact H3 |]. simpl. intros r0 [? ?]. split; [lia | auto].
Qed.

Lemma get_wf (now : timestamp) (h : string) (db : database) :
  cache_wf db -> cache_wf (CacheStore.get now h db).1.
Proof.
  intros (H1 & H2 & H3). unfold CacheStore.get, cache_wf; simpl.
  set (f := fun r => if decide (extraction_cache.file_hash r = h)
                     then CacheStore.touch now r else r).
  assert (Hh : forall r, extraction_cache.file_hash (f r)
                         = extraction_cache.file_hash r).
  { intros r. unfold f. destruct (decide _); reflexivity. }
  assert (Hi : forall r, extraction_cache.id (f r) = extraction_cache.id r).
  { intros r. unfold f. destruct (decide _); reflexivity. }
  split; [| split].
  - rewrite <- list_fmap_compose.
    erewrite list_fmap_ext; [exact H1 |]. intros i r _. apply Hh.
  - rewrite <- list_fmap_compose.
    erewrite list_fmap_ext; [exact H2 |]. intros i r _. apply Hi.
  - apply Forall_fmap. eapply Forall_impl; [exact H3 |]. simpl.
    intros r. rewrite Hh, Hi. auto.
Qed.

(** In every reachable state no session id and no content hash is stored
    twice, no primary key either, and the keyed strings are within the
    lengths of their columns. *)
Lemma reachable_wf (s : system) :
  reachable s -> ledger_wf (sys_db s) /\ cache_wf (sys_db s).
Proof.
  induction 1 as [|op s Hs [IHl IHc]].
  - split; repeat split; simpl; constructor.
  - destruct op as [now v | now | now h R C | now h | rg | now]; simpl.
    + split; [apply append_wf; exact IHl |].
      destruct (append_cases now v (sys_db s))
        as [(e & _ & ->) | [(r & _ & _ & ->) | (r & _ & _ & ->)]]; exact IHc.
    + split; [apply seed_wf; exact IHl |].
      unfold seed, insert_sessions_do_nothing.
      destruct (insert_each_do_nothing _ _ _ _) as [seq' [t'|e]]; exact IHc.
    + split; [| apply put_wf; exact IHc].
      unfold CacheStore.put.
      destruct (CacheStore.lookup h _) as [e|].
      * destruct (decide _); exact IHl.
      * destruct (extraction_cache.INSERT _ _ _ _) as [[t' r]|e]; exact IHl.
    + split; [exact IHl | apply get_wf; exact IHc].
    + auto.
    + split; apply cleanup_old_data_wf; assumption.
Qed.


Section ledger_claims.
Import demo_sessions.

(** *** What the operations do to the rows of the ledger *)

Lemma put_keeps_sessions (now : timestamp) (h : string) (R : jsonb)
    (C : option float8) (db : database) :
  db_demo_sessions (CacheStore.put now h R C db).1 = db_demo_sessions db.
Proof.
  unfold CacheStore.put.
  destruct (CacheStore.lookup h (db_extraction_cache db)) as [e|].
  - destruct (decide _); reflexivity.
  - destruct (extraction_cache.INSERT _ _ _ _) as [[t' r]|e]; reflexivity.
Qed.

Lemma append_rows (now : timestamp) (v : VALUES.t) (db : database) (r' : row) :
  r' ∈ db_demo_sessions (SessionLedger.append now v db).1 ->
  r' ∈ db_demo_sessions db
  \/ ((session_id r' ∉ session_ids db)
      /\ (String.length (session_id r') <= 16)%nat).
Proof.
  destruct (append_cases now v db)
    as [(e & _ & ->) | [(r & _ & _ & ->) | (r & Hr & Hfresh & ->)]];
    simpl; auto.
  rewrite elem_of_app, list_elem_of_singleton. intros [H | ->]; [auto |].
  right. split; [exact Hfresh |].
  apply new_row_session_id in Hr as (sid & _ & Hv).
  exact (varchar_Ok_length _ _ _ _ Hv).
Qed.

Lemma insert_each_do_nothing_rows (now : timestamp) (vs : list VALUES.t) :
  forall (seq : Z) (t : list row) (seq' : Z) (t' : list row),
    insert_each_do_nothing now vs seq t = (seq', Ok t') ->
    forall r', r' ∈ t' ->
      r' ∈ t
      \/ ((session_id r' ∉ session_id <$> t)
          /\ (String.length (session_id r') <= 16)%nat).
Proof.
  induction vs as [|v vs IH]; intros seq t seq' t' H r' Hr'; simpl in H.
  - injection H as <- <-. auto.
  - unfold INSERT_ON_CONFLICT_DO_NOTHING in H.
    destruct (new_row now (seq + 1) v) as [r|e] eqn:E; simpl in H;
      [| discriminate H].
    destruct (decide (conflicts t r)) as [Hc|Hc]; simpl in H.
    + exact (IH _ _ _ _ H r' Hr').
    + destruct (IH _ _ _ _ H r' Hr') as [Hin | [Hfresh Hlen]].
      * apply elem_of_app in Hin as [Hin | Hin]; [auto |].
        apply list_elem_of_singleton in Hin as ->.
        right. split; [exact Hc |].
        apply new_row_session_id in E as (sid & _ & Hv).
        exact (varchar_Ok_length _ _ _ _ Hv).
      * right. split; [| exact Hlen].
        intros Hin. apply Hfresh. rewrite fmap_app, elem_of_app. auto.
Qed.

Lemma seed_rows (now : timestamp) (db : database) (r' : row) :
  r' ∈ db_demo_sessions (seed now db).1 ->
  r' ∈ db_demo_sessions db
  \/ ((session_id r' ∉ session_ids db)
      /\ (String.length (session_id r') <= 16)%nat).
Proof.
  unfold seed, insert_sessions_do_nothing.
  destruct (insert_each_do_nothing now (seed_values now)
              (db_demo_sessions_id_seq db) (db_demo_sessions db))
    as [seq' [t'|e]] eqn:E; simpl; [| auto].
  exact (insert_each_do_nothing_rows _ _ _ _ _ _ E r').
Qed.

(** Every row of the ledger after an operation was there before it, the
    same, or is a new row under a session id that was not there, of at most
    16 characters. *)
Lemma step_rows (op : operation) (s : system) (r' : row) :
  r' ∈ db_demo_sessions (sys_db (step op s)) ->
  r' ∈ db_demo_sessions (sys_db s)
  \/ ((session_id r' ∉ session_ids (sys_db s))
      /\ (String.length (session_id r') <= 16)%nat).
Proof.
  destruct op as [now v | now | now h R C | now h | rg | now]; simpl.
  - apply append_rows.
  - apply seed_rows.
  - rewrite put_keeps_sessions. auto.
  - auto.
  - auto.
  - unfold RetentionManager.runRetention, cleanup_old_data; simpl.
    rewrite elem_of_DELETE_WHERE. tauto.
Qed.




(** The seed twice: the second run finds the three session ids taken, and
    leaves the rows as they are, without an error. *)
Example seed_twice :
  seed (noon_2025_01_01 + USECS_PER_DAY) seeded_database
  = (set_demo_sessions (db_demo_sessions seeded_database) 6 seeded_database,
     None).
Proof. vm_compute. reflexivity. Qed.

Example append_duplicate :
  (SessionLedger.append (noon_2025_01_01 + 1)
     (plain_session "demo001" "again.pdf" 1024 None) seeded_database).2
  = Some DuplicateSessionError.
Proof. vm_compute. reflexivity. Qed.
End ledger_claims.

Section validation_claims.
Import demo_sessions.

(** C9, as stated, fails: the record [negative_size_session], with a
    [file_size] of -1 and a [quality_score] of 1.5, is appended without an
    error and stored as it is. *)
Lemma append_stores_negative_size_and_score_above_one :
  VALUES.file_size negative_size_session = Given (Some (-1))
  /\ VALUES.quality_score negative_size_session = Given (Some f8_three_halves)
  /\ in_unit_interval f8_three_halves = false
  /\ (SessionLedger.append noon_2025_01_01 negative_size_session
        empty_database).2 = None
  /\ (fun r => (session_id r, file_size r, quality_score r))
       <$> db_demo_sessions
             (SessionLedger.append noon_2025_01_01 negative_size_session
                empty_database).1
     = [("s-neg"%string, -1, Some f8_three_halves)].
Proof. repeat split; vm_compute; reflexivity. Qed.

(** C9, amended.  [append] refuses a record with [ValidationError] only
    when a value does not fit its column: a record that fits the columns,
    under a session id the ledger does not hold, is stored without an
    error, with the [file_size] and the [quality_score] it came with,
    whatever their sign or range.  The cache table stores the confidence it
    is given in the same way. *)
Theorem append_stores_what_fits_the_columns (now : timestamp) (v : VALUES.t)
    (db : database) (sid : string) (fsize : Z) :
  fits_columns v ->
  arg_value None (VALUES.session_id v) = Some sid ->
  arg_value None (VALUES.file_size v) = Some fsize ->
  sid ∉ session_ids db ->
  (exists r,
     SessionLedger.append now v db
     = (set_demo_sessions (db_demo_sessions db ++ [r])
          (db_demo_sessions_id_seq db + 1) db, None)
     /\ session_id r = sid
     /\ file_size r = fsize
     /\ quality_score r = arg_value None (VALUES.quality_score v))
  /\ (forall v',
        (SessionLedger.append now v' db).2 = Some ValidationError ->
        ~ fits_columns v')
  /\ (forall next_id w e,
        extraction_cache.new_row now next_id w = Ok e ->
        extraction_cache.confidence_score e
        = arg_value None (extraction_cache.VALUES.confidence_score w)).
Proof.
  intros Hfits Hsid Hfsize Hfresh.
  split; [| split].
  - destruct (new_row_fits now (db_demo_sessions_id_seq db + 1) v Hfits)
      as (r & Hr & Hrsid & _ & Hrsize & Hq & _).
    assert (Hs : session_id r = sid) by congruence.
    exists r.
    destruct (append_cases now v db)
      as [(e & He & _) | [(r1 & Hr1 & Hdup & _) | (r1 & Hr1 & _ & ->)]].
    + congruence.
    + exfalso. apply Hfresh. congruence.
    + assert (r1 = r) as -> by congruence.
      repeat split; congruence.
  - intros v' Herr Hfits'.
    destruct (new_row_fits now (db_demo_sessions_id_seq db + 1) v' Hfits')
      as (r & Hr & _).
    destruct (append_cases now v' db)
      as [(e & He & _) | [(r1 & _ & _ & Ha) | (r1 & _ & _ & Ha)]].
    + congruence.
    + rewrite Ha in Herr. discriminate Herr.
    + rewrite Ha in Herr. discriminate Herr.
  - intros next_id w e. unfold extraction_cache.new_row. intros H.
    do 4 (apply bind_Ok in H as (? & _ & H)).
    injection H as <-. reflexivity.
Qed.

Lemma append_stores_what_fits_the_columns_witness :
  let v := negative_size_session in
  let now := noon_2025_01_01 in
  let db := seeded_database in
  fits_columns v
  /\ arg_value None (VALUES.session_id v) = Some "s-neg"%string
  /\ arg_value None (VALUES.file_size v) = Some (-1)
  /\ ("s-neg"%string ∉ session_ids db)
  /\ ((exists r,
         SessionLedger.append now v db
         = (set_demo_sessions (db_demo_sessions db ++ [r])
              (db_demo_sessions_id_seq db + 1) db, None)
         /\ session_id r = "s-neg"%string
         /\ file_size r = -1
         /\ quality_score r = arg_value None (VALUES.quality_score v))
      /\ (forall v',
            (SessionLedger.append now v' db).2 = Some ValidationError ->
            ~ fits_columns v')
      /\ (forall next_id w e,
            extraction_cache.new_row now next_id w = Ok e ->
            extraction_cache.confidence_score e
            = arg_value None (extraction_cache.VALUES.confidence_score w))).
Proof.
  assert (H1 : fits_columns negative_size_session).
  { unfold fits_columns, fits_varchar, fits_int4; simpl.
    repeat split; eauto; intros x [= <-]; simpl; try lia; reflexivity. }
  assert (H2 : "s-neg"%string ∉ session_ids seeded_database).
  { unfold session_ids. vm_compute.
    intros H. repeat (apply elem_of_cons in H as [H | H]; [discriminate H |]).
    exact (not_elem_of_nil _ H). }
  split; [exact H1 |]. split; [reflexivity |]. split; [reflexivity |].
  split; [exact H2 |].
  exact (append_stores_what_fits_the_columns noon_2025_01_01
           negative_size_session seeded_database "s-neg" (-1)
           H1 eq_refl eq_refl H2).
Defined.




(** The bound is 16: an id of 16 characters is stored, one of 17 is not. *)
Example append_sid_16 :
  (SessionLedger.append noon_2025_01_01
     (plain_session sid_16 "g.pdf" 1024 None) empty_database).2 = None
  /\ session_ids
       (SessionLedger.append noon_2025_01_01
          (plain_session sid_16 "g.pdf" 1024 None) empty_database).1
     = [sid_16].
Proof. split; vm_compute; reflexivity. Qed.

Example append_sid_17 :
  SessionLedger.append noon_2025_01_01
    (plain_session sid_17 "f.pdf" 1024 None) empty_database
  = (set_demo_sessions [] 1 empty_database, Some ValidationError).
Proof. vm_compute. reflexivity. Qed.
End validation_claims.

(** * Further properties of [init.sql] *)

(** ** The seed: [INSERT ... ON CONFLICT (session_id) DO NOTHING] *)

Section do_nothing.
Import demo_sessions.

(** The record [v] builds a row at every instant and under every key, and
    the row is filed under [sid]. *)
Lemma seed_values_build (now : timestamp) :
  Forall2
    (fun v sid => forall next_id,
       exists r, new_row now next_id v = Ok r /\ session_id r = sid)
    (seed_values now) seed_session_ids.
Proof.
  unfold seed_values, seed_session_ids.
  constructor; [| constructor; [| constructor; [| constructor]]];
    intros next_id; eexists; (split; [reflexivity | reflexivity]).
Qed.

Lemma insert_each_do_nothing_spec (now : timestamp) (vs : list VALUES.t)
    (sids : list string) :
  Forall2
    (fun v sid => forall next_id,
       exists r, new_row now next_id v = Ok r /\ session_id r = sid)
    vs sids ->
  forall (seq : Z) (t : list row),
  exists t',
    insert_each_do_nothing now vs seq t = (seq + Z.of_nat (length vs), Ok t')
    /\ t `prefix_of` t'
    /\ (forall sid, sid ∈ sids -> sid ∈ session_id <$> t')
    /\ (forall r, r ∈ t' -> r ∈ t \/ session_id r ∈ sids)
    /\ ((forall sid, sid ∈ sids -> sid ∈ session_id <$> t) -> t' = t)
    /\ (length t' <= length t + length vs)%nat.
Proof.
  induction 1 as [|v sid vs sids Hv Hvs IH]; intros seq t.
  - exists t. simpl. rewrite Z.add_0_r.
    split; [reflexivity |]. split; [reflexivity |].
    split; [intros sid Hsid; inversion Hsid |].
    split; [auto |]. split; [auto | lia].
  - destruct (Hv (seq + 1)) as (r & Hr & Hsid).
    cbn [insert_each_do_nothing]. unfold INSERT_ON_CONFLICT_DO_NOTHING.
    rewrite Hr. cbn [mbind result_bind Pg.bind].
    destruct (decide (conflicts t r)) as [Hc|Hc]; cbn [mret result_ret].
    + destruct (IH (seq + 1) t) as (t' & He & Hp & Hall & Hnew & Hsame & Hlen).
      exists t'. rewrite He.
      split; [f_equal; cbn [length]; lia |]. split; [exact Hp |].
      split; [| split; [| split]].
      * intros sid' Hin. apply elem_of_cons in Hin as [-> | Hin]; [| auto].
        subst sid. unfold conflicts in Hc.
        destruct Hp as [k ->]. rewrite fmap_app, elem_of_app. auto.
      * intros r' Hr'. destruct (Hnew r' Hr') as [? | ?]; [auto |].
        right. apply elem_of_cons. auto.
      * intros Hsub. apply Hsame. intros sid' Hin. apply Hsub.
        apply elem_of_cons. auto.
      * cbn [length]. lia.
    + destruct (IH (seq + 1) (t ++ [r]))
        as (t' & He & Hp & Hall & Hnew & Hsame & Hlen).
      exists t'. rewrite He.
      split; [f_equal; cbn [length]; lia |].
      split; [destruct Hp as [k ->]; rewrite <- app_assoc; eexists; reflexivity |].
      split; [| split; [| split]].
      * intros sid' Hin. apply elem_of_cons in Hin as [-> | Hin]; [| auto].
        subst sid. destruct Hp as [k ->].
        rewrite !fmap_app, !elem_of_app. left. right.
        apply list_elem_of_singleton. reflexivity.
      * intros r' Hr'. destruct (Hnew r' Hr') as [Hin | ?].
        -- apply elem_of_app in Hin as [? | Hin]; [auto |].
           apply list_elem_of_singleton in Hin as ->.
           right. apply elem_of_cons. auto.
        -- right. apply elem_of_cons. auto.
      * intros Hsub. exfalso. apply Hc. unfold conflicts. rewrite Hsid.
        apply Hsub. apply elem_of_cons. auto.
      * rewrite length_app in Hlen. cbn [length] in *. lia.
Qed.



(** The seed over a ledger that holds another record under [demo002]: that
    record stays, the two other ids are added. *)
Example seed_half_seeded :
  (fun r => (id r, session_id r, file_name r))
    <$> db_demo_sessions (seed noon_2025_01_01 half_seeded_database).1
  = [ (1, "demo002", "other.pdf"); (2, "demo001", "contrat_service.pdf");
      (4, "demo003", "contrat_bail.txt") ]%string.
Proof. vm_compute. reflexivity. Qed.

End do_nothing.

(** ** The view [daily_stats] *)

Section view.

#[local] Instance date_desc_total : Total date_desc.
Proof. intros [x|] [y|]; simpl; auto. lia. Qed.

#[local] Instance date_desc_trans : Transitive date_desc.
Proof. intros [x|] [y|] [z|]; simpl; auto; try tauto. lia. Qed.

#[local] Instance date_desc_antisymm : AntiSymm (=) date_desc.
Proof.
  intros [x|] [y|]; simpl; try tauto. intros H1 H2. f_equal. lia.
Qed.

Lemma group_of_nonempty (k : option date) (t : list demo_sessions.row) :
  k ∈ group_key <$> t -> (0 < length (group_of k t))%nat.
Proof.
  rewrite list_elem_of_fmap. intros (r & -> & Hr).
  assert (H : r ∈ group_of (group_key r) t).
  { unfold group_of. apply list_elem_of_filter. auto. }
  destruct (group_of (group_key r) t); [inversion H | simpl; lia].
Qed.

(** X3.  The view has a row for a day exactly when some session falls on
    that day (the sessions without a timestamp make the [NULL] row): a day
    without sessions has no row, and every row counts at least one session.
    The view of the empty ledger is empty, and only that one. *)
Theorem daily_stats_rows_are_the_days_with_sessions (t : list demo_sessions.row) :
  (forall k,
     (exists row, row ∈ daily_stats t /\ daily_stats.date row = k)
     <-> exists r, r ∈ t /\ group_key r = k)
  /\ (forall row, row ∈ daily_stats t -> 1 <= daily_stats.total_sessions row)
  /\ (daily_stats t = [] <-> t = []).
Proof.
  split; [| split].
  - intros k. split.
    + intros (row & Hrow & Hd). apply elem_of_daily_stats in Hrow as (k' & Hk' & ->).
      simpl in Hd. subst k'. apply list_elem_of_fmap in Hk' as (r & -> & Hr).
      exists r. auto.
    + intros (r & Hr & Hk). exists (aggregate k (group_of k t)).
      split; [| reflexivity]. apply elem_of_daily_stats. exists k.
      split; [| reflexivity]. apply list_elem_of_fmap. exists r. auto.
  - intros row Hrow. apply elem_of_daily_stats in Hrow as (k & Hk & ->).
    simpl. unfold COUNT. pose proof (group_of_nonempty k t Hk). lia.
  - split.
    + intros He. destruct t as [|r t]; [reflexivity |]. exfalso.
      assert (H : aggregate (group_key r) (group_of (group_key r) (r :: t))
                  ∈ daily_stats (r :: t)).
      { apply elem_of_daily_stats. exists (group_key r).
        split; [| reflexivity]. rewrite fmap_cons. apply list_elem_of_here. }
      rewrite He in H. inversion H.
    + intros ->. reflexivity.
Qed.

Lemma StronglySorted_NoDup_strict {A} (R : relation A) (l : list A) :
  StronglySorted R l -> NoDup l ->
  StronglySorted (fun a b => R a b /\ a <> b) l.
Proof.
  induction 1 as [|a l Hl IH Ha]; intros Hnd; constructor.
  - apply IH. apply NoDup_cons in Hnd. tauto.
  - apply NoDup_cons in Hnd as [Hnotin _].
    rewrite Forall_forall in Ha |- *. intros b Hb. split; [auto |].
    intros ->. exact (Hnotin Hb).
Qed.

(** X4.  The rows of the view come most recent day first, after the [NULL]
    row if there is one, and no two rows are of the same day: each row
    is strictly before every row below it. *)
Theorem daily_stats_most_recent_first (t : list demo_sessions.row) :
  StronglySorted date_before (daily_stats.date <$> daily_stats t).
Proof.
  pose proof (daily_stats_NoDup t) as Hnd.
  rewrite daily_stats_dates in Hnd |- *.
  pose proof (StronglySorted_merge_sort date_desc
                (remove_dups (group_key <$> t))) as Hs.
  pose proof (StronglySorted_NoDup_strict _ _ Hs Hnd) as Hstrict.
  revert Hstrict. generalize (merge_sort date_desc (remove_dups (group_key <$> t))).
  intros l. induction 1 as [|a l Hl IH Ha]; constructor; [exact IH |].
  eapply Forall_impl; [exact Ha |]. simpl. intros b [Hab Hne].
  destruct a as [x|], b as [y|]; simpl in *; try tauto.
  assert (x <> y) by congruence. lia.
Qed.

(** *** Every session is counted once *)

Lemma indicator_sum {K} `{EqDecision K} (ks : list K) (k0 : K) :
  NoDup ks -> k0 ∈ ks ->
  SUM ((fun k => if decide (k0 = k) then 1 else 0) <$> ks) = 1.
Proof.
  induction 1 as [|k ks Hk Hnd IH]; intros Hin; [inversion Hin |].
  rewrite fmap_cons. cbn [SUM foldr]. fold (SUM ((fun k => if decide (k0 = k) then 1 else 0) <$> ks)).
  destruct (decide (k0 = k)) as [->|Hne].
  - assert (H0 : SUM ((fun k' => if decide (k = k') then 1 else 0) <$> ks) = 0).
    { clear IH Hin Hnd. induction ks as [|k' ks IH]; [reflexivity |].
      rewrite fmap_cons. cbn [SUM foldr].
      fold (SUM ((fun k' => if decide (k = k') then 1 else 0) <$> ks)).
      rewrite not_elem_of_cons in Hk. destruct Hk as [Hne Hk].
      rewrite decide_False by exact Hne. rewrite (IH Hk). reflexivity. }
    rewrite H0. reflexivity.
  - apply elem_of_cons in Hin as [? | Hin]; [congruence |].
    rewrite (IH Hin). reflexivity.
Qed.

Lemma SUM_add (f g : option date -> Z) (ks : list (option date)) :
  SUM ((fun k => f k + g k) <$> ks) = SUM (f <$> ks) + SUM (g <$> ks).
Proof.
  induction ks as [|k ks IH]; [reflexivity |].
  rewrite !fmap_cons. cbn [SUM foldr]. fold (SUM ((fun k => f k + g k) <$> ks)).
  fold (SUM (f <$> ks)). fold (SUM (g <$> ks)). lia.
Qed.

Lemma groups_partition (ks : list (option date)) (l : list demo_sessions.row) :
  NoDup ks -> (forall r, r ∈ l -> group_key r ∈ ks) ->
  SUM ((fun k => Z.of_nat (length (group_of k l))) <$> ks) = Z.of_nat (length l).
Proof.
  intros Hnd. induction l as [|r l IH]; intros Hcov.
  - clear. induction ks as [|k ks IH]; [reflexivity |].
    rewrite fmap_cons. cbn [SUM foldr]. fold (SUM ((fun k => Z.of_nat (length (group_of k []))) <$> ks)).
    rewrite IH. reflexivity.
  - transitivity
      (SUM ((fun k => (if decide (group_key r = k) then 1 else 0)
                      + Z.of_nat (length (group_of k l))) <$> ks)).
    { f_equal. apply list_fmap_ext. intros i k _. unfold group_of.
      rewrite filter_cons. destruct (decide (group_key r = k)); simpl; lia. }
    rewrite SUM_add, indicator_sum, IH.
    + cbn [length]. lia.
    + intros r' Hr'. apply Hcov. apply elem_of_cons. auto.
    + exact Hnd.
    + apply Hcov. apply list_elem_of_here.
Qed.

Lemma filter_group_of (P : demo_sessions.row -> Prop) `{!forall r, Decision (P r)}
    (k : option date) (t : list demo_sessions.row) :
  filter P (group_of k t) = group_of k (filter P t).
Proof.
  unfold group_of. induction t as [|r t IH]; [reflexivity |].
  rewrite !filter_cons.
  destruct (decide (group_key r = k)), (decide (P r));
    rewrite ?filter_cons, ?decide_True, ?decide_False by assumption;
    rewrite IH; reflexivity.
Qed.

Lemma SUM_over_daily_stats (f : daily_stats.row -> Z)
    (g : list demo_sessions.row -> Z) (t : list demo_sessions.row) :
  (forall k, f (aggregate k (group_of k t)) = g (group_of k t)) ->
  SUM (f <$> daily_stats t)
  = SUM ((fun k => g (group_of k t)) <$> remove_dups (group_key <$> t)).
Proof.
  intros Hf. unfold daily_stats. rewrite <- list_fmap_compose.
  transitivity
    (SUM ((fun k => g (group_of k t))
            <$> merge_sort date_desc (remove_dups (group_key <$> t)))).
  { f_equal. apply list_fmap_ext. intros i k _. apply Hf. }
  apply sum_Permutation. apply fmap_Permutation. apply merge_sort_Permutation.
Qed.

Lemma COUNT_FILTER_partition (cond : demo_sessions.row -> option bool)
    (t : list demo_sessions.row) :
  SUM ((fun k => COUNT_FILTER cond (group_of k t))
         <$> remove_dups (group_key <$> t))
  = COUNT_FILTER cond t.
Proof.
  unfold COUNT_FILTER.
  rewrite <- (groups_partition (remove_dups (group_key <$> t))
                (filter (fun r => sql_is_true (cond r) = true) t)).
  - f_equal. apply list_fmap_ext. intros i k _.
    rewrite filter_group_of. reflexivity.
  - apply NoDup_remove_dups.
  - intros r Hr. apply elem_of_remove_dups, list_elem_of_fmap.
    apply list_elem_of_filter in Hr as [_ Hr]. exists r. auto.
Qed.

(** X5.  Every session is counted in exactly one row: over the rows of the
    view, the session counts add up to the number of sessions of the ledger,
    the success counts to the number of successful sessions and the ticket
    counts to the number of sessions with a ticket. *)
Theorem daily_stats_counts_add_up (t : list demo_sessions.row) :
  SUM (daily_stats.total_sessions <$> daily_stats t) = COUNT t
  /\ SUM (daily_stats.successful_extractions <$> daily_stats t)
     = COUNT_FILTER
         (fun r => sql_eq_bool (demo_sessions.extraction_success r) true) t
  /\ SUM (daily_stats.jira_tickets <$> daily_stats t)
     = COUNT_FILTER
         (fun r => sql_eq_bool (demo_sessions.jira_ticket_created r) true) t.
Proof.
  split; [| split].
  - rewrite (SUM_over_daily_stats _ (fun g => Z.of_nat (length g)))
      by reflexivity.
    apply groups_partition; [apply NoDup_remove_dups |].
    intros r Hr. apply elem_of_remove_dups, list_elem_of_fmap. exists r. auto.
  - rewrite (SUM_over_daily_stats _
               (COUNT_FILTER
                  (fun r => sql_eq_bool (demo_sessions.extraction_success r) true)))
      by reflexivity.
    apply COUNT_FILTER_partition.
  - rewrite (SUM_over_daily_stats _
               (COUNT_FILTER
                  (fun r => sql_eq_bool (demo_sessions.jira_ticket_created r) true)))
      by reflexivity.
    apply COUNT_FILTER_partition.
Qed.



Lemma omap_id_nil (xs : list (option Z)) :
  omap id xs = [] <-> forall x, x ∈ xs -> x = None.
Proof.
  induction xs as [|[z|] xs IH]; cbn.
  - split; [intros _ x Hx; inversion Hx | reflexivity].
  - split; [discriminate |]. intros H.
    specialize (H (Some z) (list_elem_of_here _ _)). discriminate H.
  - rewrite IH. split.
    + intros H x Hx. apply elem_of_cons in Hx as [-> | Hx]; auto.
    + intros H x Hx. apply H. apply elem_of_cons. auto.
Qed.

Lemma AVG_int4_None (xs : list (option Z)) :
  AVG_int4 xs = None <-> forall x, x ∈ xs -> x = None.
Proof.
  rewrite <- omap_id_nil. unfold AVG_int4.
  destruct (omap id xs); split; congruence.
Qed.

Lemma SUM_bounds (lo hi : Z) (vs : list Z) :
  (forall v, v ∈ vs -> lo <= v <= hi) ->
  lo * Z.of_nat (length vs) <= SUM vs <= hi * Z.of_nat (length vs).
Proof.
  induction vs as [|v vs IH]; intros H; [cbn; lia |].
  cbn [SUM foldr length]. fold (SUM vs).
  pose proof (H v (list_elem_of_here _ _)).
  assert (Hvs : forall v', v' ∈ vs -> lo <= v' <= hi).
  { intros v' Hv'. apply H. apply elem_of_cons. auto. }
  specialize (IH Hvs). lia.
Qed.

Lemma AVG_int4_bounds (lo hi : Z) (xs : list (option Z)) (q : Q) :
  (forall l, Some l ∈ xs -> lo <= l <= hi) ->
  AVG_int4 xs = Some q ->
  (inject_Z lo <= q)%Q /\ (q <= inject_Z hi)%Q.
Proof.
  intros Hb. unfold AVG_int4.
  assert (Hvs : forall v, v ∈ omap id xs -> lo <= v <= hi).
  { intros v Hv. apply list_elem_of_omap in Hv as (x & Hx & Hid).
    simpl in Hid. subst x. auto. }
  destruct (omap id xs) as [|v vs] eqn:E; [discriminate |].
  intros [= <-]. pose proof (SUM_bounds lo hi (v :: vs) Hvs) as Hs.
  assert (Hn : Z.pos (Pos.of_nat (S (length vs))) = Z.of_nat (length (v :: vs))).
  { cbn [length]. rewrite <- Pos.of_nat_succ, Zpos_P_of_succ_nat. lia. }
  rewrite !Qred_correct. unfold Qle, inject_Z. cbn [Qnum Qden length].
  rewrite Hn. unfold SUM in Hs. cbn [foldr] in Hs |- *. lia.
Qed.

(** X6.  The average latency of a row of the view is [NULL] exactly when no
    session of its day has a latency; otherwise it lies between any two
    bounds that hold for the latencies of the sessions of that day. *)
Theorem daily_stats_avg_latency_within_the_latencies
    (t : list demo_sessions.row) (row : daily_stats.row) (lo hi : Z) :
  row ∈ daily_stats t ->
  (forall r l, r ∈ t -> group_key r = daily_stats.date row ->
               demo_sessions.latency_ms r = Some l -> lo <= l <= hi) ->
  (daily_stats.avg_latency_ms row = None
   <-> forall r, r ∈ t -> group_key r = daily_stats.date row ->
                 demo_sessions.latency_ms r = None)
  /\ (forall q, daily_stats.avg_latency_ms row = Some q ->
                (inject_Z lo <= q)%Q /\ (q <= inject_Z hi)%Q).
Proof.
  intros Hrow Hb. apply elem_of_daily_stats in Hrow as (k & _ & ->).
  simpl in *. split.
  - rewrite AVG_int4_None. split.
    + intros H r Hr Hk. apply H. apply list_elem_of_fmap. exists r.
      split; [reflexivity |]. unfold group_of. apply list_elem_of_filter. auto.
    + intros H x Hx. apply list_elem_of_fmap in Hx as (r & -> & Hr).
      unfold group_of in Hr. apply list_elem_of_filter in Hr as [Hk Hr]. auto.
  - intros q. apply AVG_int4_bounds. intros l Hl.
    apply list_elem_of_fmap in Hl as (r & Hl & Hr).
    unfold group_of in Hr. apply list_elem_of_filter in Hr as [Hk Hr].
    apply (Hb r l Hr Hk). auto.
Qed.

Lemma daily_stats_avg_latency_within_the_latencies_witness :
  let t := db_demo_sessions scenario_database in
  let row := aggregate (Some (make_date 2025 1 1))
               (group_of (Some (make_date 2025 1 1)) t) in
  row ∈ daily_stats t
  /\ (forall r l, r ∈ t -> group_key r = daily_stats.date row ->
                  demo_sessions.latency_ms r = Some l -> 100 <= l <= 300)
  /\ ((daily_stats.avg_latency_ms row = None
       <-> forall r, r ∈ t -> group_key r = daily_stats.date row ->
                     demo_sessions.latency_ms r = None)
      /\ (forall q, daily_stats.avg_latency_ms row = Some q ->
                    (inject_Z 100 <= q)%Q /\ (q <= inject_Z 300)%Q)).
Proof.
  assert (H1 : aggregate (Some (make_date 2025 1 1))
                 (group_of (Some (make_date 2025 1 1))
                    (db_demo_sessions scenario_database))
               ∈ daily_stats (db_demo_sessions scenario_database)).
  { vm_compute. apply list_elem_of_further, list_elem_of_here. }
  assert (H2 : forall r l,
             r ∈ db_demo_sessions scenario_database ->
             group_key r
             = daily_stats.date
                 (aggregate (Some (make_date 2025 1 1))
                    (group_of (Some (make_date 2025 1 1))
                       (db_demo_sessions scenario_database))) ->
             demo_sessions.latency_ms r = Some l -> 100 <= l <= 300).
  { intros r l Hr. vm_compute in Hr.
    repeat (apply elem_of_cons in Hr as [-> | Hr]);
      [| | | | inversion Hr]; intros Hk Hl; vm_compute in Hk, Hl;
      first [discriminate Hk | injection Hl as <-; lia]. }
  split; [exact H1 |]. split; [exact H2 |].
  exact (daily_stats_avg_latency_within_the_latencies _ _ 100 300 H1 H2).
Defined.

Lemma sorted_keys_Permutation (t t' : list demo_sessions.row) :
  t ≡ₚ t' ->
  merge_sort date_desc (remove_dups (group_key <$> t))
  = merge_sort date_desc (remove_dups (group_key <$> t')).
Proof.
  intros Hp.
  apply (StronglySorted_unique date_desc);
    try (apply StronglySorted_merge_sort; apply _).
  rewrite !merge_sort_Permutation.
  apply NoDup_Permutation; try apply NoDup_remove_dups.
  intros k. rewrite !elem_of_remove_dups, Hp. reflexivity.
Qed.

(** X7.  The order of the rows of the ledger does not matter to the dates,
    the three counts and the average latency of the view: two ledgers with
    the same rows in another order give the same values, row by row. *)
Theorem daily_stats_exact_columns_ignore_row_order (t t' : list demo_sessions.row) :
  t ≡ₚ t' ->
  exact_columns <$> daily_stats t = exact_columns <$> daily_stats t'.
Proof.
  intros Hp. unfold daily_stats.
  rewrite <- !list_fmap_compose, (sorted_keys_Permutation t t' Hp).
  apply list_fmap_ext. intros i k _. unfold exact_columns; simpl.
  assert (Hg : group_of k t ≡ₚ group_of k t').
  { unfold group_of. rewrite Hp. reflexivity. }
  f_equal; [f_equal; [f_equal; [f_equal |] |] |].
  - unfold COUNT. rewrite Hg. reflexivity.
  - unfold COUNT_FILTER. rewrite Hg. reflexivity.
  - unfold COUNT_FILTER. rewrite Hg. reflexivity.
  - apply AVG_int4_Permutation. rewrite Hg. reflexivity.
Qed.

Lemma daily_stats_exact_columns_ignore_row_order_witness :
  big_score_first ≡ₚ big_score_last
  /\ exact_columns <$> daily_stats big_score_first
     = exact_columns <$> daily_stats big_score_last.
Proof.
  assert (H : big_score_first ≡ₚ big_score_last).
  { unfold big_score_first, big_score_last.
    apply (Permutation_cons_append [_; _]). }
  split; [exact H |].
  exact (daily_stats_exact_columns_ignore_row_order _ _ H).
Defined.

(** The average quality is summed in binary64 in scan order, and does depend
    on it: 2^53 + 1 + 1 is 2^53 from the left and 2^53 + 2 from the right. *)
Example avg_quality_depends_on_row_order :
  daily_stats.avg_quality <$> daily_stats big_score_first
  = [Some (S754_finite false 6004799503160661 (-1))]
  /\ daily_stats.avg_quality <$> daily_stats big_score_last
     = [Some (S754_finite false 6004799503160663 (-1))].
Proof. split; vm_compute; reflexivity. Qed.

End view.

(** ** The cleanup *)

Section cleanup.

Lemma DELETE_WHERE_again {A} (c1 c2 : A -> option bool) (t : list A) :
  (forall r, sql_is_true (c1 r) = true -> sql_is_true (c2 r) = true) ->
  DELETE_WHERE c1 (DELETE_WHERE c2 t) = DELETE_WHERE c2 t
  /\ DELETE_WHERE c2 (DELETE_WHERE c1 t) = DELETE_WHERE c2 t.
Proof.
  intros H. unfold DELETE_WHERE. split.
  - induction t as [|r t IH]; [reflexivity |].
    rewrite (filter_cons _ r t).
    destruct (decide (sql_is_true (c2 r) = false)) as [E|E]; [| exact IH].
    rewrite filter_cons, IH.
    destruct (decide (sql_is_true (c1 r) = false)) as [E1|E1]; [reflexivity |].
    destruct (sql_is_true (c1 r)) eqn:E'; [| congruence].
    rewrite (H r E') in E. discriminate E.
  - induction t as [|r t IH]; [reflexivity |].
    rewrite !(filter_cons _ r t).
    destruct (decide (sql_is_true (c1 r) = false)) as [E1|E1].
    + rewrite filter_cons, IH. reflexivity.
    + rewrite IH. rewrite decide_False; [reflexivity |].
      destruct (sql_is_true (c1 r)) eqn:E'; [| congruence].
      rewrite (H r E'). discriminate.
Qed.

(** X8.  A second run of the cleanup at the same instant deletes nothing
    more.  A run only removes rows: each table afterwards is the table
    before with rows left out, in the same order, and the sequences are
    not touched. *)
Theorem cleanup_old_data_twice (now : timestamp) (db : database) :
  cleanup_old_data now (cleanup_old_data now db) = cleanup_old_data now db
  /\ db_demo_sessions (cleanup_old_data now db) `sublist_of` db_demo_sessions db
  /\ db_extraction_cache (cleanup_old_data now db)
       `sublist_of` db_extraction_cache db
  /\ db_quality_metrics (cleanup_old_data now db)
       `sublist_of` db_quality_metrics db
  /\ db_demo_sessions_id_seq (cleanup_old_data now db)
     = db_demo_sessions_id_seq db
  /\ db_extraction_cache_id_seq (cleanup_old_data now db)
     = db_extraction_cache_id_seq db.
Proof.
  split.
  - unfold cleanup_old_data; simpl. f_equal;
      apply DELETE_WHERE_again; auto.
  - unfold cleanup_old_data; simpl.
    repeat split; apply sublist_DELETE_WHERE.
Qed.

(** X9.  For the sessions and for the cache, whose windows are counted in
    days, a run of the cleanup makes every run at an earlier instant
    redundant, before it or after it. *)
Theorem cleanup_old_data_later_run_subsumes (now1 now2 : timestamp)
    (db : database) :
  now1 <= now2 ->
  db_demo_sessions (cleanup_old_data now2 (cleanup_old_data now1 db))
  = db_demo_sessions (cleanup_old_data now2 db)
  /\ db_demo_sessions (cleanup_old_data now1 (cleanup_old_data now2 db))
     = db_demo_sessions (cleanup_old_data now2 db)
  /\ db_extraction_cache (cleanup_old_data now2 (cleanup_old_data now1 db))
     = db_extraction_cache (cleanup_old_data now2 db)
  /\ db_extraction_cache (cleanup_old_data now1 (cleanup_old_data now2 db))
     = db_extraction_cache (cleanup_old_data now2 db).
Proof.
  intros Hle. unfold cleanup_old_data; simpl.
  assert (H : forall n ts,
             sql_is_true (sql_lt ts (timestamp_mi_interval now1 (interval_days n)))
             = true ->
             sql_is_true (sql_lt ts (timestamp_mi_interval now2 (interval_days n)))
             = true).
  { intros n ts. rewrite !deleted_iff_older_days.
    intros (t & -> & Hlt). exists t. split; [reflexivity | lia]. }
  repeat split; apply DELETE_WHERE_again; intros r; apply H.
Qed.

Lemma cleanup_old_data_later_run_subsumes_witness :
  retention_now - USECS_PER_DAY <= retention_now
  /\ (db_demo_sessions
        (cleanup_old_data retention_now
           (cleanup_old_data (retention_now - USECS_PER_DAY) boundary_database))
      = db_demo_sessions (cleanup_old_data retention_now boundary_database)
      /\ db_demo_sessions
           (cleanup_old_data (retention_now - USECS_PER_DAY)
              (cleanup_old_data retention_now boundary_database))
         = db_demo_sessions (cleanup_old_data retention_now boundary_database)
      /\ db_extraction_cache
           (cleanup_old_data retention_now
              (cleanup_old_data (retention_now - USECS_PER_DAY) boundary_database))
         = db_extraction_cache (cleanup_old_data retention_now boundary_database)
      /\ db_extraction_cache
           (cleanup_old_data (retention_now - USECS_PER_DAY)
              (cleanup_old_data retention_now boundary_database))
         = db_extraction_cache (cleanup_old_data retention_now boundary_database)).
Proof.
  assert (H : retention_now - USECS_PER_DAY <= retention_now)
    by (vm_compute; discriminate).
  split; [exact H |].
  exact (cleanup_old_data_later_run_subsumes _ _ boundary_database H).
Defined.

(** The window of the metrics is a calendar year, and there a later run can
    delete less: the row created at noon of 2023-02-28 goes in a run late
    on 2024-02-28 and stays in a run early on 2024-02-29, one year before
    which is early on 2023-02-28. *)
Example cleanup_old_data_around_leap_day :
  db_quality_metrics (cleanup_old_data late_on_2024_02_28 leap_database) = []
  /\ db_quality_metrics (cleanup_old_data early_on_2024_02_29 leap_database)
     = db_quality_metrics leap_database.
Proof. split; vm_compute; reflexivity. Qed.

End cleanup.

(** ** Inserting and cleaning up *)

Section insert.
Import demo_sessions.

Lemma append_fst (now : timestamp) (v : VALUES.t) (db : database) :
  (SessionLedger.append now v db).1 = (insert_session now v db).1.
Proof.
  unfold SessionLedger.append. destruct (insert_session now v db). reflexivity.
Qed.

(** A record that fits the columns, under a session id that is free, is
    stored as the last row. *)
Lemma insert_session_fresh (now : timestamp) (v : VALUES.t) (db : database)
    (sid : string) :
  fits_columns v ->
  arg_value None (VALUES.session_id v) = Some sid ->
  sid ∉ session_ids db ->
  exists r,
    insert_session now v db
    = (set_demo_sessions (db_demo_sessions db ++ [r])
         (db_demo_sessions_id_seq db + 1) db, None)
    /\ session_id r = sid
    /\ created_at r = arg_value (Some now) (VALUES.created_at v)
    /\ extraction_success r = arg_value (Some false) (VALUES.extraction_success v)
    /\ jira_ticket_created r
       = arg_value (Some false) (VALUES.jira_ticket_created v).
Proof.
  intros Hfits Hsid Hfresh.
  destruct (new_row_fits now (db_demo_sessions_id_seq db + 1) v Hfits)
    as (r & Hr & Hrsid & _ & _ & _ & _ & _ & Hc & _).
  exists r. unfold insert_session, INSERT. rewrite Hr. simpl.
  assert (Hs : session_id r = sid) by congruence.
  rewrite decide_False by (unfold conflicts; rewrite Hs; exact Hfresh).
  simpl. split; [reflexivity |]. split; [exact Hs |]. split; [exact Hc |].
  unfold new_row in Hr.
  do 10 (apply bind_Ok in Hr as (? & _ & Hr)).
  injection Hr as <-. simpl. auto.
Qed.

(** X10.  A session inserted at the instant [t] without a [created_at] is
    dated [t]: the cleanup keeps it in every run up to thirty days after
    [t], and deletes it in every later run. *)
Theorem inserted_session_is_kept_for_thirty_days (t now : timestamp)
    (v : VALUES.t) (db : database) (sid : string) :
  fits_columns v ->
  arg_value None (VALUES.session_id v) = Some sid ->
  sid ∉ session_ids db ->
  VALUES.created_at v = Omitted ->
  (now <= t + 30 * USECS_PER_DAY ->
   sid ∈ session_ids (cleanup_old_data now (insert_session t v db).1))
  /\ (t + 30 * USECS_PER_DAY < now ->
      sid ∉ session_ids (cleanup_old_data now (insert_session t v db).1)).
Proof.
  intros Hfits Hsid Hfresh Hdflt.
  destruct (insert_session_fresh t v db sid Hfits Hsid Hfresh)
    as (r & -> & Hs & Hc & _).
  rewrite Hdflt in Hc. simpl in Hc.
  unfold session_ids, cleanup_old_data; simpl. split.
  - intros Hle. apply list_elem_of_fmap. exists r. split; [auto |].
    apply elem_of_DELETE_WHERE. split.
    + apply elem_of_app. right. apply list_elem_of_here.
    + rewrite deleted_iff_older_days, Hc. intros (t' & [= <-] & Hlt). lia.
  - intros Hlt Hin. apply list_elem_of_fmap in Hin as (r' & Hs' & Hr').
    apply elem_of_DELETE_WHERE in Hr' as [Hr' Hkeep].
    apply elem_of_app in Hr' as [Hr' | Hr'].
    + apply Hfresh. unfold session_ids. apply list_elem_of_fmap.
      exists r'. split; [congruence | exact Hr'].
    + apply list_elem_of_singleton in Hr' as ->. apply Hkeep.
      rewrite deleted_iff_older_days, Hc. exists t. split; [reflexivity | lia].
Qed.

Lemma inserted_session_is_kept_for_thirty_days_witness :
  let v := plain_session "s-new" "a.pdf" 1024 None in
  let t := noon_2025_01_01 in
  let now := noon_2025_01_01 + 30 * USECS_PER_DAY in
  fits_columns v
  /\ arg_value None (VALUES.session_id v) = Some "s-new"%string
  /\ ("s-new"%string ∉ session_ids seeded_database)
  /\ VALUES.created_at v = Omitted
  /\ ((now <= t + 30 * USECS_PER_DAY ->
       "s-new"%string
         ∈ session_ids (cleanup_old_data now (insert_session t v seeded_database).1))
      /\ (t + 30 * USECS_PER_DAY < now ->
          "s-new"%string
            ∉ session_ids
                (cleanup_old_data now (insert_session t v seeded_database).1))).
Proof.
  assert (H1 : fits_columns (plain_session "s-new" "a.pdf" 1024 None)).
  { unfold fits_columns, fits_varchar, fits_int4; simpl.
    repeat split; eauto; intros x [= <-]; simpl; try lia; reflexivity. }
  assert (H2 : "s-new"%string ∉ session_ids seeded_database).
  { unfold session_ids. vm_compute.
    intros H. repeat (apply elem_of_cons in H as [H | H]; [discriminate H |]).
    exact (not_elem_of_nil _ H). }
  split; [exact H1 |]. split; [reflexivity |]. split; [exact H2 |].
  split; [reflexivity |].
  exact (inserted_session_is_kept_for_thirty_days noon_2025_01_01
           (noon_2025_01_01 + 30 * USECS_PER_DAY)
           (plain_session "s-new" "a.pdf" 1024 None) seeded_database "s-new"
           H1 eq_refl H2 eq_refl).
Defined.

Lemma head_of_sorted_dates (l : list (option date)) :
  StronglySorted date_desc l -> None ∈ l -> head l = Some None.
Proof.
  intros Hs Hin. destruct Hs as [|a l Hl Ha]; [inversion Hin |].
  simpl. f_equal. apply elem_of_cons in Hin as [-> | Hin]; [reflexivity |].
  rewrite Forall_forall in Ha. specialize (Ha None Hin).
  destruct a; simpl in Ha; [tauto | reflexivity].
Qed.

(** X11.  [created_at] may be [NULL]: an explicit [NULL] is stored in place
    of the default.  A session without a timestamp is kept by every run of
    the cleanup, and in the view the sessions without a timestamp are
    counted in a row of their own, without a date, which comes first. *)
Theorem undated_sessions_are_never_cleaned_up (t : timestamp) (v : VALUES.t)
    (db : database) (sid : string) :
  fits_columns v ->
  arg_value None (VALUES.session_id v) = Some sid ->
  sid ∉ session_ids db ->
  VALUES.created_at v = Given None ->
  (exists r,
     db_demo_sessions (insert_session t v db).1 = db_demo_sessions db ++ [r]
     /\ session_id r = sid /\ created_at r = None)
  /\ (forall now db' r,
        r ∈ db_demo_sessions db' -> created_at r = None ->
        r ∈ db_demo_sessions (cleanup_old_data now db'))
  /\ (forall rows,
        (exists r, r ∈ rows /\ created_at r = None) ->
        exists row,
          head (daily_stats rows) = Some row
          /\ daily_stats.date row = None
          /\ daily_stats.total_sessions row
             = COUNT (filter (fun r => created_at r = None) rows)).
Proof.
  intros Hfits Hsid Hfresh Hnull. split; [| split].
  - destruct (insert_session_fresh t v db sid Hfits Hsid Hfresh)
      as (r & -> & Hs & Hc & _).
    exists r. rewrite Hnull in Hc. simpl. auto.
  - intros now db' r Hr Hc. unfold cleanup_old_data; simpl.
    apply elem_of_DELETE_WHERE. split; [exact Hr |]. rewrite Hc. discriminate.
  - intros rows (r & Hr & Hc).
    assert (Hk : None ∈ group_key <$> rows).
    { apply list_elem_of_fmap. exists r. unfold group_key. rewrite Hc. auto. }
    pose proof (daily_stats_dates rows) as Hd.
    assert (Hh : head (daily_stats.date <$> daily_stats rows) = Some None).
    { rewrite Hd. apply head_of_sorted_dates.
      - apply StronglySorted_merge_sort.
        + intros [x|] [y|] [z|]; simpl; auto; try tauto. lia.
        + intros [x|] [y|]; simpl; auto. lia.
      - rewrite merge_sort_Permutation, elem_of_remove_dups. exact Hk. }
    destruct (daily_stats rows) as [|row rest] eqn:E; [discriminate Hh |].
    exists row. split; [reflexivity |].
    injection Hh as Hh. split; [exact Hh |].
    assert (Hrow : row ∈ daily_stats rows) by (rewrite E; apply list_elem_of_here).
    apply elem_of_daily_stats in Hrow as (k & _ & ->). simpl in Hh. subst k.
    simpl. unfold COUNT, group_of. f_equal. f_equal.
    apply list_filter_iff. intros r0. unfold group_key.
    destruct (created_at r0); simpl; split; congruence.
Qed.

Lemma undated_sessions_are_never_cleaned_up_witness :
  let v := undated_session in
  let t := noon_2025_01_01 in
  let db := seeded_database in
  fits_columns v
  /\ arg_value None (VALUES.session_id v) = Some "s-null"%string
  /\ ("s-null"%string ∉ session_ids db)
  /\ VALUES.created_at v = Given None
  /\ ((exists r,
         db_demo_sessions (insert_session t v db).1 = db_demo_sessions db ++ [r]
         /\ session_id r = "s-null"%string /\ created_at r = None)
      /\ (forall now db' r,
            r ∈ db_demo_sessions db' -> created_at r = None ->
            r ∈ db_demo_sessions (cleanup_old_data now db'))
      /\ (forall rows,
            (exists r, r ∈ rows /\ created_at r = None) ->
            exists row,
              head (daily_stats rows) = Some row
              /\ daily_stats.date row = None
              /\ daily_stats.total_sessions row
                 = COUNT (filter (fun r => created_at r = None) rows))).
Proof.
  assert (H1 : fits_columns undated_session).
  { unfold fits_columns, fits_varchar, fits_int4; simpl.
    repeat split; eauto; intros x [= <-]; simpl; try lia; reflexivity. }
  assert (H2 : "s-null"%string ∉ session_ids seeded_database).
  { unfold session_ids. vm_compute.
    intros H. repeat (apply elem_of_cons in H as [H | H]; [discriminate H |]).
    exact (not_elem_of_nil _ H). }
  split; [exact H1 |]. split; [reflexivity |]. split; [exact H2 |].
  split; [reflexivity |].
  exact (undated_sessions_are_never_cleaned_up noon_2025_01_01 undated_session
           seeded_database "s-null" H1 eq_refl H2 eq_refl).
Defined.

(** The seeded ledger with the undated session: the row without a date
    first, then the day of the seed. *)
Example undated_session_in_the_view :
  (fun row => (daily_stats.date row, daily_stats.total_sessions row))
    <$> daily_stats
          (db_demo_sessions
             (insert_session noon_2025_01_01 undated_session seeded_database).1)
  = [ (None, 1); (Some (make_date 2025 1 1), 3) ].
Proof. vm_compute. reflexivity. Qed.

End insert.

(** ** The constraints of [demo_sessions] *)

Section constraints_of_demo_sessions.
Import demo_sessions.

Lemma insert_session_error_keeps_rows (now : timestamp) (v : VALUES.t)
    (db : database) (e : sqlstate) :
  (insert_session now v db).2 = Some e ->
  (insert_session now v db).1
  = set_demo_sessions (db_demo_sessions db) (db_demo_sessions_id_seq db + 1) db.
Proof.
  unfold insert_session.
  destruct (INSERT now (db_demo_sessions_id_seq db + 1) v (db_demo_sessions db));
    simpl; [discriminate | reflexivity].
Qed.



Example insert_nameless_session :
  insert_session noon_2025_01_01 nameless_session seeded_database
  = (set_demo_sessions (db_demo_sessions seeded_database) 4 seeded_database,
     Some (not_null_violation "file_name")).
Proof. vm_compute. reflexivity. Qed.

Lemma NoDup_fmap_eq {A B} (f : A -> B) (l : list A) (x y : A) :
  NoDup (f <$> l) -> x ∈ l -> y ∈ l -> f x = f y -> x = y.
Proof.
  induction l as [|a l IH]; intros Hnd Hx Hy Hf; [inversion Hx |].
  rewrite fmap_cons in Hnd. apply NoDup_cons in Hnd as [Ha Hnd].
  apply elem_of_cons in Hx as [-> | Hx]; apply elem_of_cons in Hy as [-> | Hy].
  - reflexivity.
  - exfalso. apply Ha. rewrite Hf. apply list_elem_of_fmap. exists y. auto.
  - exfalso. apply Ha. rewrite <- Hf. apply list_elem_of_fmap. exists x. auto.
  - exact (IH Hnd Hx Hy Hf).
Qed.

(** X13.  The keys of [demo_sessions] stay unique: when no two rows share a
    session id or a primary key, and the keys come from the sequence, this
    is still so after an [INSERT], after an [INSERT ... ON CONFLICT
    (session_id) DO NOTHING] of any rows, and after the cleanup, whether the
    statement succeeds or fails.  Two rows with the same session id, or the
    same key, are then one row, and no session id is longer than 16
    characters. *)
Theorem demo_sessions_keys_stay_unique (now : timestamp) (v : VALUES.t)
    (vs : list VALUES.t) (db : database) :
  ledger_wf db ->
  ledger_wf (insert_session now v db).1
  /\ ledger_wf (insert_sessions_do_nothing now vs db).1
  /\ ledger_wf (cleanup_old_data now db)
  /\ (forall r1 r2,
        r1 ∈ db_demo_sessions db -> r2 ∈ db_demo_sessions db ->
        session_id r1 = session_id r2 \/ id r1 = id r2 -> r1 = r2)
  /\ (forall r, r ∈ db_demo_sessions db ->
                (String.length (session_id r) <= 16)%nat
                /\ id r <= db_demo_sessions_id_seq db).
Proof.
  intros Hwf. split; [| split; [| split; [| split]]].
  - rewrite <- append_fst. apply append_wf. exact Hwf.
  - unfold insert_sessions_do_nothing, ledger_wf.
    destruct (insert_each_do_nothing_wf now vs _ _ Hwf) as [Hbump Hok].
    destruct (insert_each_do_nothing now vs (db_demo_sessions_id_seq db)
                (db_demo_sessions db)) as [seq' [t'|e]]; simpl in *.
    + apply Hok. reflexivity.
    + exact Hbump.
  - apply cleanup_old_data_wf. exact Hwf.
  - destruct Hwf as (H1 & H2 & _). intros r1 r2 Hr1 Hr2 [Heq | Heq].
    + exact (NoDup_fmap_eq session_id _ r1 r2 H1 Hr1 Hr2 Heq).
    + exact (NoDup_fmap_eq id _ r1 r2 H2 Hr1 Hr2 Heq).
  - destruct Hwf as (_ & _ & H3). intros r Hr.
    rewrite Forall_forall in H3. destruct (H3 r Hr). auto.
Qed.

Lemma demo_sessions_keys_stay_unique_witness :
  let now := noon_2025_01_01 in
  let v := plain_session "demo001" "again.pdf" 1024 None in
  let vs := seed_values noon_2025_01_01 in
  let db := seeded_database in
  ledger_wf db
  /\ (ledger_wf (insert_session now v db).1
      /\ ledger_wf (insert_sessions_do_nothing now vs db).1
      /\ ledger_wf (cleanup_old_data now db)
      /\ (forall r1 r2,
            r1 ∈ db_demo_sessions db -> r2 ∈ db_demo_sessions db ->
            session_id r1 = session_id r2 \/ id r1 = id r2 -> r1 = r2)
      /\ (forall r, r ∈ db_demo_sessions db ->
                    (String.length (session_id r) <= 16)%nat
                    /\ id r <= db_demo_sessions_id_seq db)).
Proof.
  assert (H : ledger_wf seeded_database).
  { unfold ledger_wf, rows_wf.
    repeat split; apply (bool_decide_unpack _); vm_compute; exact I. }
  split; [exact H |].
  exact (demo_sessions_keys_stay_unique noon_2025_01_01
           (plain_session "demo001" "again.pdf" 1024 None)
           (seed_values noon_2025_01_01) seeded_database H).
Defined.

End constraints_of_demo_sessions.

(** * Properties of [working_backend.js] *)

Section listener.
Import Node working_backend.

Ltac route rt req :=
  unfold respond, listener;
  set (health := healthData rt); set (analysis := responseData rt);
  destruct (decide (method req = "OPTIONS"%string)) as [Hopt|Hopt];
  [| destruct (decide (url req = "/health"%string \/ url req = "/"%string))
       as [Hhealth|Hhealth];
     [| destruct (decide (url req = "/api/v1/contract/analyze"%string
                          /\ method req = "POST"%string)) as [Han|Han];
        [| destruct (decide (String.prefix "/download/" (url req) = true
                             /\ method req = "GET"%string)) as [Hdl|Hdl]]]];
  clearbody health analysis.

(** No statement of the listener throws. *)
Lemma respond_returns (rt : runtime) (req : IncomingMessage) :
  (respond rt req).1 = inr ().
Proof. route rt req; vm_compute; reflexivity. Qed.

(** X14.  The listener answers every request and never throws: when it
    returns, the head has been written, with status 200 or 404, the response
    is finished with at most one piece of body, and the three CORS headers
    are set, on a 404 as well. *)
Theorem listener_answers_every_request (rt : runtime) (req : IncomingMessage) :
  exists w,
    respond rt req = (inr (), w)
    /\ finished (res w) = true
    /\ headersSent (res w) = true
    /\ (statusCode (res w) = 200 \/ statusCode (res w) = 404)
    /\ (length (body (res w)) <= 1)%nat
    /\ getHeader "Access-Control-Allow-Origin" (res w) = Some "*"%string
    /\ getHeader "Access-Control-Allow-Methods" (res w)
       = Some "GET, POST, OPTIONS"%string
    /\ getHeader "Access-Control-Allow-Headers" (res w)
       = Some "Content-Type"%string.
Proof.
  exists (respond rt req).2.
  split; [apply injective_projections; [apply respond_returns | reflexivity] |].
  route rt req; cbn [snd];
    (split; [vm_compute; reflexivity |]); (split; [vm_compute; reflexivity |]);
    (split; [first [left; vm_compute; reflexivity
                   | right; vm_compute; reflexivity] |]);
    (split; [apply Nat.leb_le; vm_compute; reflexivity |]);
    repeat split; vm_compute; reflexivity.
Qed.

(** X15.  A preflight is answered before the url is looked at: every
    [OPTIONS] request, to any url, gets status 200 with no body, and only
    the request line is logged. *)
Theorem listener_answers_preflight_on_any_url (rt : runtime)
    (req : IncomingMessage) :
  method req = "OPTIONS"%string ->
  exists w,
    respond rt req = (inr (), w)
    /\ statusCode (res w) = 200
    /\ body (res w) = []
    /\ finished (res w) = true
    /\ getHeader "Content-Type" (res w) = Some "application/json"%string
    /\ stdout w = [log_time rt +:+ " - " +:+ method req +:+ " " +:+ url req].
Proof.
  intros Hm. exists (respond rt req).2.
  split; [apply injective_projections; [apply respond_returns | reflexivity] |].
  route rt req; [| contradiction..].
  repeat split; vm_compute; reflexivity.
Qed.

Lemma listener_answers_preflight_on_any_url_witness :
  method options_anywhere = "OPTIONS"%string
  /\ exists w,
       respond example_runtime options_anywhere = (inr (), w)
       /\ statusCode (res w) = 200
       /\ body (res w) = []
       /\ finished (res w) = true
       /\ getHeader "Content-Type" (res w) = Some "application/json"%string
       /\ stdout w
          = [log_time example_runtime +:+ " - " +:+ method options_anywhere
             +:+ " " +:+ url options_anywhere].
Proof.
  split; [reflexivity |].
  exact (listener_answers_preflight_on_any_url example_runtime options_anywhere
           eq_refl).
Defined.

(** X16.  The status is 404 exactly when the request is none of: a
    preflight, a request to [/health] or [/] (by any other method), a [POST]
    to [/api/v1/contract/analyze], a [GET] under [/download/].  The path is
    compared as it was sent, so that a [GET] to the analysis path or a
    [POST] under [/download/] is a 404.  The body of a 404 names the url of
    the request as it was sent. *)
Theorem listener_404_exactly_off_the_routes (rt : runtime)
    (req : IncomingMessage) :
  (statusCode (res (respond rt req).2) = 404
   <-> ~ is_preflight req /\ ~ is_health req /\ ~ is_analyze req
       /\ ~ is_download req)
  /\ (statusCode (res (respond rt req).2) = 404 ->
      body (res (respond rt req).2) = [Stringify (not_found req)]
      /\ json_field "url" (not_found req) = Some (JString (url req)))
  /\ (statusCode (res (respond rt req).2) <> 404 ->
      statusCode (res (respond rt req).2) = 200).
Proof.
  unfold is_preflight, is_health, is_analyze, is_download.
  route rt req; cbn [snd]; (split; [| split]).
  all: try (split; [intros H; vm_compute in H; discriminate H | tauto]).
  all: try (intros H; vm_compute in H; discriminate H).
  all: try (intros _; vm_compute; reflexivity).
  - split; [intros _; tauto | intros _; vm_compute; reflexivity].
  - intros _. split; vm_compute; reflexivity.
  - intros H. exfalso. apply H. vm_compute. reflexivity.
Qed.

(** A [POST] under [/download/] and a [GET] to the analysis path. *)
Example post_to_download_is_404 :
  statusCode (res (respond example_runtime post_to_download).2) = 404
  /\ statusCode
       (res (respond example_runtime
               {| method := "GET"; url := "/api/v1/contract/analyze" |}).2)
     = 404
  /\ statusCode
       (res (respond example_runtime
               {| method := "GET"; url := "/health?probe=1" |}).2)
     = 404.
Proof. repeat split; vm_compute; reflexivity. Qed.

Lemma download_is_no_other_route (req : IncomingMessage) :
  is_download req -> ~ is_preflight req /\ ~ is_health req /\ ~ is_analyze req.
Proof.
  unfold is_download, is_preflight, is_health, is_analyze.
  intros [Hp Hm]. split; [congruence |]. split.
  - intros [Hu | Hu]; rewrite Hu in Hp; discriminate Hp.
  - intros [Hu _]. rewrite Hu in Hp. discriminate Hp.
Qed.

(** X17.  The response is declared [application/pdf], with a
    [Content-Disposition] of attachment, exactly for a [GET] under
    [/download/]; every other response, the empty one of a preflight and the
    404 included, is declared [application/json] and has no
    [Content-Disposition].  The later [Content-Type] replaces the earlier
    one. *)
Theorem listener_content_type (rt : runtime) (req : IncomingMessage) :
  (is_download req ->
   getHeader "Content-Type" (res (respond rt req).2)
   = Some "application/pdf"%string
   /\ getHeader "Content-Disposition" (res (respond rt req).2)
      = Some ("attachment; filename=" +:+ dquote +:+ "contract-summary.pdf"
              +:+ dquote)
   /\ body (res (respond rt req).2)
      = [Text "PDF Content Simulation - XYQO Contract Analysis Report"])
  /\ (~ is_download req ->
      getHeader "Content-Type" (res (respond rt req).2)
      = Some "application/json"%string
      /\ getHeader "Content-Disposition" (res (respond rt req).2) = None)
  /\ getHeader "content-type" (res (respond rt req).2)
     = getHeader "Content-Type" (res (respond rt req).2).
Proof.
  split; [| split].
  - intros Hd. destruct (download_is_no_other_route req Hd) as (H1 & H2 & H3).
    unfold is_preflight, is_health, is_analyze, is_download in *.
    route rt req; try contradiction.
    repeat split; vm_compute; reflexivity.
  - unfold is_download. intros Hd.
    route rt req; try contradiction; split; vm_compute; reflexivity.
  - reflexivity.
Qed.

(** X18.  The [processing_id] of an analysis is [xyqo-] followed by the
    milliseconds of the clock: two analyses get the same id exactly when
    they read the same millisecond. *)
Theorem processing_id_is_the_millisecond (rt1 rt2 : runtime) :
  json_field "processing_id" (responseData rt1)
  = Some (JString ("xyqo-" +:+ pretty (Date_now rt1)))
  /\ (json_field "processing_id" (responseData rt1)
      = json_field "processing_id" (responseData rt2)
      <-> Date_now rt1 = Date_now rt2)
  /\ (forall req, is_analyze req -> ~ is_preflight req ->
        body (res (respond rt1 req).2) = [Stringify (responseData rt1)]
        /\ statusCode (res (respond rt1 req).2) = 200).
Proof.
  split; [reflexivity |]. split.
  - change (json_field "processing_id" (responseData rt1))
      with (Some (JString ("xyqo-" +:+ pretty (Date_now rt1)))).
    change (json_field "processing_id" (responseData rt2))
      with (Some (JString ("xyqo-" +:+ pretty (Date_now rt2)))).
    split.
    + intros [= H]. exact (pretty_N_inj _ _ H).
    + intros ->. reflexivity.
  - unfold is_analyze, is_preflight. intros req Ha Hp.
    assert (Hh : ~ (url req = "/health"%string \/ url req = "/"%string)).
    { destruct Ha as [Hu _]. rewrite Hu. intros [H | H]; discriminate H. }
    route rt1 req; try contradiction. split; vm_compute; reflexivity.
Qed.

Example analyze_response :
  json_field "processing_id"
    (responseData example_runtime)
  = Some (JString "xyqo-1735732800001")
  /\ body (res (respond example_runtime post_analyze).2)
     = [Stringify (responseData example_runtime)].
Proof. split; vm_compute; reflexivity. Qed.

End listener.
